(** * otf-api: the request dispatcher and the booking models

    A shallow embedding of [src/otf/api.py] (the authenticated request
    dispatcher [Api._do] and [Api.base_headers]) and of
    [src/otf_api/models/responses/bookings.py] (the status enums, the
    entity field tables and the column-header function), with the
    properties of the specification stated over them.

    Text is modelled as ASCII text: [String.string], one character per
    byte.  Python dictionaries are insertion-ordered association lists
    with the update-in-place-or-append discipline of [dict.__setitem__];
    dictionary objects a caller keeps a reference to live in a heap. *)

From Stdlib Require Import ZArith Lia Bool List Ascii String DecimalString.
From stdpp Require Import base option list strings gmap.

Local Open Scope string_scope.
Local Open Scope Z_scope.

(* ===================================================================== *)
(** ** Python text: [str.lower] and [repr] *)
(* ===================================================================== *)

Module PyStr.

(** [str.lower] on one ASCII character: [A]..[Z] move down by 32, every
    other character is left alone. *)
Definition lower_char (c : ascii) : ascii :=
  let n := N_of_ascii c in
  if ((65 <=? n) && (n <=? 90))%N then ascii_of_N (n + 32) else c.

Fixpoint lower (s : string) : string :=
  match s with
  | EmptyString => EmptyString
  | String c r => String (lower_char c) (lower r)
  end.

Fixpoint contains_char (c : ascii) (s : string) : bool :=
  match s with
  | EmptyString => false
  | String d r => if Ascii.eqb c d then true else contains_char c r
  end.

(** [str.startswith]. *)
Fixpoint startswith (s p : string) : bool :=
  match p, s with
  | EmptyString, _ => true
  | String _ _, EmptyString => false
  | String a p', String b s' => if Ascii.eqb a b then startswith s' p' else false
  end.

(** [str.split(sep)] for a one-character separator: always at least one
    piece, empty pieces kept. *)
Fixpoint split (sep : ascii) (s : string) : list string :=
  match s with
  | EmptyString => [EmptyString]
  | String c r =>
      if Ascii.eqb c sep then EmptyString :: split sep r
      else match split sep r with
           | p :: ps => String c p :: ps
           | [] => [String c EmptyString]
           end
  end.

Fixpoint join (sep : string) (l : list string) : string :=
  match l with
  | [] => EmptyString
  | [x] => x
  | x :: r => x +:+ sep +:+ join sep r
  end.

Definition hex_digit (n : N) : ascii :=
  if (n <? 10)%N then ascii_of_N (48 + n) else ascii_of_N (87 + n).

Definition quote1 : ascii := ascii_of_N 39.
Definition quote2 : ascii := ascii_of_N 34.
Definition backslash : ascii := ascii_of_N 92.

(** One character of [repr] of a [str] delimited by [q]. *)
Definition repr_char (q c : ascii) : string :=
  let n := N_of_ascii c in
  if Ascii.eqb c q || Ascii.eqb c backslash then String backslash (String c EmptyString)
  else if (n =? 9)%N then String backslash "t"
  else if (n =? 10)%N then String backslash "n"
  else if (n =? 13)%N then String backslash "r"
  else if ((n <? 32) || (n =? 127))%N then
    String backslash (String "x" (String (hex_digit (n / 16)) (String (hex_digit (n mod 16)) EmptyString)))
  else String c EmptyString.

Fixpoint repr_body (q : ascii) (s : string) : string :=
  match s with
  | EmptyString => EmptyString
  | String c r => repr_char q c +:+ repr_body q r
  end.

(** [repr] of a [str]: single quotes, unless the text holds a single
    quote and no double quote. *)
Definition repr (s : string) : string :=
  let q := if contains_char quote1 s && negb (contains_char quote2 s) then quote2 else quote1 in
  String q (repr_body q s +:+ String q EmptyString).

(** [repr] of an [int]. *)
Definition repr_int (z : Z) : string := NilZero.string_of_int (Z.to_int z).

End PyStr.

(* ===================================================================== *)
(** ** Exceptions and results *)
(* ===================================================================== *)

(** The exceptions the modelled code can raise.  [ValueError] is what
    the code itself raises, for a rejected status name and for a missing
    session user; [ValidationError] is the model layer's; [HttpError]
    and [DecodeError] are the failures of the HTTP layer. *)
Inductive exn : Type :=
| ValueError (msg : string)
| KeyError (key : string)
| AttributeError (msg : string)
| ValidationError (path reason : string)
| HttpError (status : Z) (url body : string)
| DecodeError.

Inductive result (A : Type) : Type :=
| Ok (a : A)
| Raise (e : exn).
Arguments Ok {A} a.
Arguments Raise {A} e.

(* ===================================================================== *)
(** ** Python dictionaries *)
(* ===================================================================== *)

Module Dict.

Section Ops.
Context {V : Type}.

Fixpoint get (d : list (string * V)) (k : string) : option V :=
  match d with
  | [] => None
  | (k', v) :: r => if String.eqb k k' then Some v else get r k
  end.

(** [d[k] = v]: the entry is replaced where it stands, or appended. *)
Fixpoint set (d : list (string * V)) (k : string) (v : V) : list (string * V) :=
  match d with
  | [] => [(k, v)]
  | (k', v') :: r => if String.eqb k k' then (k', v) :: r else (k', v') :: set r k v
  end.

(** [d.update(e)]: the entries of [e] are stored in order. *)
Definition update (d e : list (string * V)) : list (string * V) :=
  fold_left (fun acc kv => set acc (fst kv) (snd kv)) e d.

Fixpoint remove (d : list (string * V)) (k : string) : list (string * V) :=
  match d with
  | [] => []
  | (k', v) :: r => if String.eqb k k' then r else (k', v) :: remove r k
  end.

Definition keys (d : list (string * V)) : list string := map fst d.

(** A dictionary comprehension [{key x: val x for x in xs if keep x}]. *)
Definition comprehension {X : Type} (key : X -> string) (val : X -> V)
    (keep : X -> bool) (xs : list X) : list (string * V) :=
  fold_left (fun acc x => if keep x then set acc (key x) (val x) else acc) xs [].

End Ops.

End Dict.

(* ===================================================================== *)
(** ** The status enums of [bookings.py] *)
(* ===================================================================== *)

Module BookingStatus.

Inductive t : Type :=
| CheckedIn | CancelCheckinPending | CancelCheckinRequested | Cancelled
| LateCancelled | Booked | Waitlisted | CheckinPending | CheckinRequested
| CheckinCancelled.

Definition name (m : t) : string :=
  match m with
  | CheckedIn => "CheckedIn"
  | CancelCheckinPending => "CancelCheckinPending"
  | CancelCheckinRequested => "CancelCheckinRequested"
  | Cancelled => "Cancelled"
  | LateCancelled => "LateCancelled"
  | Booked => "Booked"
  | Waitlisted => "Waitlisted"
  | CheckinPending => "CheckinPending"
  | CheckinRequested => "CheckinRequested"
  | CheckinCancelled => "CheckinCancelled"
  end.

Definition value (m : t) : string :=
  match m with
  | CheckedIn => "Checked In"
  | CancelCheckinPending => "Cancel Checkin Pending"
  | CancelCheckinRequested => "Cancel Checkin Requested"
  | Cancelled => "Cancelled"
  | LateCancelled => "Late Cancelled"
  | Booked => "Booked"
  | Waitlisted => "Waitlisted"
  | CheckinPending => "Checkin Pending"
  | CheckinRequested => "Checkin Requested"
  | CheckinCancelled => "Checkin Cancelled"
  end.

(** Iterating the class: the members in definition order. *)
Definition members : list t :=
  [CheckedIn; CancelCheckinPending; CancelCheckinRequested; Cancelled;
   LateCancelled; Booked; Waitlisted; CheckinPending; CheckinRequested;
   CheckinCancelled].

(** [cls._member_map_], also seen through [cls.__members__]. *)
Definition _member_map_ : list (string * t) :=
  Dict.comprehension name (fun m => m) (fun _ => true) members.

(** Truth value of a member of a [str]-mixed enum: that of its value. *)
Definition truthy (m : t) : bool := negb (String.eqb (value m) "").

(** [BookingStatus(v)]: the member whose value is [v]. *)
Definition of_value (shown v : string) : result t :=
  match find (fun m => String.eqb (value m) v) members with
  | Some m => Ok m
  | None => Raise (ValueError (shown +:+ " is not a valid BookingStatus"))
  end.

Definition get_from_key_insensitive (key : string) : result t :=
  let lcase_to_actual :=
    Dict.comprehension PyStr.lower (fun item => item) (fun _ => true)
      (Dict.keys _member_map_) in
  match Dict.get lcase_to_actual (PyStr.lower key) with
  | None => Raise (KeyError (PyStr.lower key))
  | Some actual =>
      match Dict.get _member_map_ actual with
      | Some val =>
          if truthy val then Ok val
          else Raise (ValueError ("Invalid BookingStatus: " +:+ key))
      | None => Raise (ValueError ("Invalid BookingStatus: " +:+ key))
      end
  end.

Definition get_case_insensitive (value_ : string) : result string :=
  let lcase_to_actual :=
    Dict.comprehension (fun item => PyStr.lower (value item)) value
      (fun _ => true) members in
  match Dict.get lcase_to_actual (PyStr.lower value_) with
  | None => Raise (KeyError (PyStr.lower value_))
  | Some actual => Ok actual
  end.

End BookingStatus.

Module BookingStatusCli.

Inductive t : Type :=
| CheckedIn | CancelCheckinPending | CancelCheckinRequested | Cancelled
| LateCancelled | Booked | Waitlisted | CheckinPending | CheckinRequested
| CheckinCancelled.

Definition name (m : t) : string :=
  match m with
  | CheckedIn => "CheckedIn"
  | CancelCheckinPending => "CancelCheckinPending"
  | CancelCheckinRequested => "CancelCheckinRequested"
  | Cancelled => "Cancelled"
  | LateCancelled => "LateCancelled"
  | Booked => "Booked"
  | Waitlisted => "Waitlisted"
  | CheckinPending => "CheckinPending"
  | CheckinRequested => "CheckinRequested"
  | CheckinCancelled => "CheckinCancelled"
  end.

(** The CLI enum: every value is the member's name. *)
Definition value (m : t) : string :=
  match m with
  | CheckedIn => "CheckedIn"
  | CancelCheckinPending => "CancelCheckinPending"
  | CancelCheckinRequested => "CancelCheckinRequested"
  | Cancelled => "Cancelled"
  | LateCancelled => "LateCancelled"
  | Booked => "Booked"
  | Waitlisted => "Waitlisted"
  | CheckinPending => "CheckinPending"
  | CheckinRequested => "CheckinRequested"
  | CheckinCancelled => "CheckinCancelled"
  end.

Definition members : list t :=
  [CheckedIn; CancelCheckinPending; CancelCheckinRequested; Cancelled;
   LateCancelled; Booked; Waitlisted; CheckinPending; CheckinRequested;
   CheckinCancelled].

Definition _member_map_ : list (string * t) :=
  Dict.comprehension name (fun m => m) (fun _ => true) members.

Definition truthy (m : t) : bool := negb (String.eqb (value m) "").

(** [repr] of a member, as the enum machinery prints it in its error. *)
Definition repr (m : t) : string :=
  "<BookingStatusCli." +:+ name m +:+ ": " +:+ PyStr.repr (value m) +:+ ">".

(** The last line, [BookingStatus(val)], looks [val] up among the
    VALUES of [BookingStatus]: [val] is a [str], compared as its value. *)
Definition to_standard_case_insensitive (key : string) : result BookingStatus.t :=
  let lcase_to_actual :=
    Dict.comprehension PyStr.lower (fun item => item) (fun _ => true)
      (Dict.keys _member_map_) in
  match Dict.get lcase_to_actual (PyStr.lower key) with
  | None => Raise (KeyError (PyStr.lower key))
  | Some actual =>
      match Dict.get _member_map_ actual with
      | Some val =>
          if truthy val then BookingStatus.of_value (repr val) (value val)
          else Raise (ValueError ("Invalid BookingStatus: " +:+ key))
      | None => Raise (ValueError ("Invalid BookingStatus: " +:+ key))
      end
  end.

Definition get_case_insensitive (value_ : string) : result string :=
  let lcase_to_actual :=
    Dict.comprehension (fun item => PyStr.lower (value item)) value
      (fun _ => true) members in
  match Dict.get lcase_to_actual (PyStr.lower value_) with
  | None => Raise (KeyError (PyStr.lower value_))
  | Some actual => Ok actual
  end.

End BookingStatusCli.

(* ===================================================================== *)
(** ** Python values *)
(* ===================================================================== *)

(** The values that travel through the dispatcher and the model layer:
    query parameters, header values, request bodies and decoded JSON.  A
    float is named by its [repr], the shortest decimal text that reads
    back as it; the code does no arithmetic on floats. *)
#[local] Set Warnings "-register-all".
Inductive pyval : Type :=
| VNone
| VBool (b : bool)
| VInt (z : Z)
| VFloat (r : string)
| VStr (s : string)
| VList (l : list pyval)
| VDict (d : list (string * pyval)).

Module PyVal.

(** [v is None]. *)
Definition is_none (v : pyval) : bool :=
  match v with VNone => true | _ => false end.

(** [type(v).__name__]. *)
Definition type_name (v : pyval) : string :=
  match v with
  | VNone => "NoneType"
  | VBool _ => "bool"
  | VInt _ => "int"
  | VFloat _ => "float"
  | VStr _ => "str"
  | VList _ => "list"
  | VDict _ => "dict"
  end.

Fixpoint repr (v : pyval) : string :=
  match v with
  | VNone => "None"
  | VBool true => "True"
  | VBool false => "False"
  | VInt z => PyStr.repr_int z
  | VFloat r => r
  | VStr s => PyStr.repr s
  | VList l => "[" +:+ PyStr.join ", " (map repr l) +:+ "]"
  | VDict d =>
      "{" +:+ PyStr.join ", "
                (map (fun kv => PyStr.repr (fst kv) +:+ ": " +:+ repr (snd kv)) d)
          +:+ "}"
  end.

(** Truth value of a dictionary: non-empty. *)
Definition dict_truthy (d : list (string * pyval)) : bool :=
  match d with [] => false | _ => true end.

End PyVal.

(* ===================================================================== *)
(** ** The world the dispatcher runs in *)
(* ===================================================================== *)

(** Dictionary objects are named by locations. *)
Definition loc := positive.

(** A keyword argument: a value (a dictionary written in the call
    itself included, which nobody else holds), or a dictionary object
    that the caller holds, passed by reference. *)
Inductive arg : Type :=
| AVal (v : pyval)
| ARef (l : loc).

(** What [session.request] is called with. *)
Record Request : Type := mkRequest {
  req_method : string;
  req_url : string;
  req_headers : list (string * pyval);
  req_params : list (string * pyval);
  req_kwargs : list (string * arg)
}.

Record Response : Type := mkResponse {
  status : Z;
  body : string
}.

(** What the dispatcher does that the outside can observe, in the order
    it happens: a debug message logged, a request sent. *)
Inductive event : Type :=
| Debug (msg : string)
| Sent (req : Request).

(** The heap of dictionary objects and the events so far, oldest first. *)
Record World : Type := mkWorld {
  heap : gmap loc (list (string * pyval));
  events : list event
}.

Definition debug_log (w : World) : list string :=
  flat_map (fun e => match e with Debug m => [m] | Sent _ => [] end) (events w).

Definition sent (w : World) : list Request :=
  flat_map (fun e => match e with Sent r => [r] | Debug _ => [] end) (events w).

(** A computation that may raise and may change the world; what it did
    before raising stays done. *)
Definition M (A : Type) : Type := World -> result A * World.

Definition ret {A} (a : A) : M A := fun w => (Ok a, w).

Definition raise {A} (e : exn) : M A := fun w => (Raise e, w).

Definition bind {A B} (c : M A) (k : A -> M B) : M B :=
  fun w => match c w with
           | (Ok a, w') => k a w'
           | (Raise e, w') => (Raise e, w')
           end.

Notation "'do' x <- c ; k" := (bind c (fun x => k))
  (at level 10, x name, c at level 100, k at level 200).
Notation "c ;; k" := (bind c (fun _ => k))
  (at level 100, k at level 200, right associativity).

(** The contents of a dictionary object; a location never written holds
    the empty dictionary. *)
Definition deref (l : loc) : M (list (string * pyval)) :=
  fun w => (Ok (default [] (heap w !! l)), w).

Definition store (l : loc) (d : list (string * pyval)) : M unit :=
  fun w => (Ok tt, mkWorld (<[l := d]> (heap w)) (events w)).

Definition logger_debug (msg : string) : M unit :=
  fun w => (Ok tt, mkWorld (heap w) (events w ++ [Debug msg])).

(** [str] of the keyword dictionary: a referenced dictionary is printed
    with the contents it has at that moment. *)
Definition kwargs_text (h : gmap loc (list (string * pyval)))
    (kwargs : list (string * arg)) : string :=
  "{" +:+ PyStr.join ", "
            (map (fun ka =>
                    PyStr.repr (fst ka) +:+ ": " +:+
                    match snd ka with
                    | AVal v => PyVal.repr v
                    | ARef l => PyVal.repr (VDict (default [] (h !! l)))
                    end) kwargs)
      +:+ "}".

Definition repr_kwargs (kwargs : list (string * arg)) : M string :=
  fun w => (Ok (kwargs_text (heap w) kwargs), w).

(* ===================================================================== *)
(** ** [api.py]: the authenticated session and the dispatcher *)
(* ===================================================================== *)

Module Api.

Record Cognito : Type := mkCognito { id_token : string }.
Record User : Type := mkUser { cognito : Cognito }.

(** The session: [user] is [None] when nobody is logged in. *)
Record t : Type := mkApi { user : option User }.

Definition API_BASE_URL : string := "api.orangetheory.co".
Definition API_IO_BASE_URL : string := "api.orangetheory.io".
Definition API_DNA_BASE_URL : string := "api.yuzu.orangetheory.com".

Definition base_headers (self : t) : M (list (string * pyval)) :=
  match user self with
  | None => raise (ValueError "No user is logged in.")
  | Some u =>
      ret [("Authorization", VStr ("Bearer " +:+ id_token (cognito u)));
           ("Content-Type", VStr "application/json");
           ("Accept", VStr "application/json")]
  end.

(** Modelled from the spec: [response.raise_for_status] is the HTTP
    library's, not under src; the spec has every status outside 2xx fail
    with [HttpError{status, url, body}]. *)
Definition raise_for_status (url : string) (r : Response) : M unit :=
  if (200 <=? status r) && (status r <? 300) then ret tt
  else raise (HttpError (status r) url (body r)).

Section Dispatcher.

(** The three library operations the dispatcher calls: [URL.build]
    followed by [str] (scheme, host and path to the text of the URL),
    the server that answers a request, and the JSON decoder. *)
Variable URL_build : string -> string -> string -> string.
Variable server : Request -> Response.
Variable json_loads : string -> option pyval.

(** Modelled from the spec: [response.json] is the HTTP library's, not
    under src; the spec has it decode the body as JSON and fail with
    [DecodeError] when the body is not valid JSON. *)
Definition response_json (r : Response) : M pyval :=
  match json_loads (body r) with
  | Some j => ret j
  | None => raise DecodeError
  end.

(** [session.request]: the request goes out once and is answered. *)
Definition session_request (req : Request) : M Response :=
  fun w => (Ok (server req), mkWorld (heap w) (events w ++ [Sent req])).

Definition _do (self : t) (method base_url url : string)
    (params : option loc) (kwargs : list (string * arg)) : M pyval :=
  (* params = params or {} *)
  do params0 <- match params with
                | None => ret []
                | Some l => do d <- deref l; ret (if PyVal.dict_truthy d then d else [])
                end;
  let params1 :=
    Dict.comprehension fst snd (fun kv => negb (PyVal.is_none (snd kv))) params0 in
  let full_url := URL_build "https" base_url url in
  do shown <- repr_kwargs kwargs;
  logger_debug ("Making " +:+ PyStr.repr method +:+ " request to " +:+ full_url
                +:+ ", params: " +:+ PyVal.repr (VDict params1)
                +:+ ", kwargs: " +:+ shown);;
  do hk <- match Dict.get kwargs "headers" with
           | Some a =>
               let kwargs' := Dict.remove kwargs "headers" in
               match a with
               | ARef l =>
                   do auth <- base_headers self;
                   do d <- deref l;
                   store l (Dict.update d auth);;
                   do d' <- deref l;
                   ret (d', kwargs')
               | AVal (VDict d) =>
                   do auth <- base_headers self;
                   ret (Dict.update d auth, kwargs')
               | AVal v =>
                   raise (AttributeError
                            ("'" +:+ PyVal.type_name v +:+ "' object has no attribute 'update'"))
               end
           | None =>
               do auth <- base_headers self;
               ret (auth, kwargs)
           end;
  let req := mkRequest method full_url (fst hk) params1 (snd hk) in
  do response <- session_request req;
  raise_for_status full_url response;;
  response_json response.

Definition _classes_request (self : t) (method url : string)
    (params : option loc) (kwargs : list (string * arg)) : M pyval :=
  _do self method API_IO_BASE_URL url params kwargs.

Definition _default_request (self : t) (method url : string)
    (params : option loc) (kwargs : list (string * arg)) : M pyval :=
  _do self method API_BASE_URL url params kwargs.

Definition _dna_request (self : t) (method url : string)
    (params : option loc) (kwargs : list (string * arg)) : M pyval :=
  _do self method API_DNA_BASE_URL url params kwargs.

Definition _performance_summary_request (self : t) (method url : string)
    (params : option loc) (kwargs : list (string * arg)) : M pyval :=
  _do self method API_IO_BASE_URL url params kwargs.

End Dispatcher.

End Api.

(* ===================================================================== *)
(** ** [bookings.py]: the studio status enum *)
(* ===================================================================== *)

Module StudioStatus.

Inductive t : Type :=
| OTHER | ACTIVE | INACTIVE | COMING_SOON | TEMP_CLOSED | PERM_CLOSED.

Definition name (m : t) : string :=
  match m with
  | OTHER => "OTHER"
  | ACTIVE => "ACTIVE"
  | INACTIVE => "INACTIVE"
  | COMING_SOON => "COMING_SOON"
  | TEMP_CLOSED => "TEMP_CLOSED"
  | PERM_CLOSED => "PERM_CLOSED"
  end.

Definition value (m : t) : string :=
  match m with
  | OTHER => "OTHER"
  | ACTIVE => "Active"
  | INACTIVE => "Inactive"
  | COMING_SOON => "Coming Soon"
  | TEMP_CLOSED => "Temporarily Closed"
  | PERM_CLOSED => "Permanently Closed"
  end.

Definition members : list t :=
  [OTHER; ACTIVE; INACTIVE; COMING_SOON; TEMP_CLOSED; PERM_CLOSED].

Definition all_statuses : list t := members.

End StudioStatus.

(* ===================================================================== *)
(** ** [bookings.py]: the entity schemas *)
(* ===================================================================== *)

(** One declared field: its name, the key it is read from, its type, its
    default when it has one, and whether it is left out of the output. *)
Record field (T : Type) : Type := mkField {
  fname : string;
  alias : string;
  ftyp : T;
  default_ : option pyval;
  exclude : bool
}.
Arguments mkField {T} _ _ _ _ _.
Arguments fname {T} _.
Arguments alias {T} _.
Arguments ftyp {T} _.
Arguments default_ {T} _.
Arguments exclude {T} _.

Inductive ftype : Type :=
| TStr | TInt | TFloat | TBool | TDatetime
| TStudioStatus | TBookingStatus
| TOptional (t : ftype)
| TModel (fs : list (field ftype)).

(** The value of a field of a parsed entity. *)
Inductive fvalue : Type :=
| FLeaf (v : pyval)
| FDatetime (t : Z)
| FStudioStatus (m : StudioStatus.t)
| FBookingStatus (m : BookingStatus.t)
| FModel (e : list (string * fvalue)).

Module Schema.

(** [name: T = Field(alias=a)], [Field(alias=a, exclude=True)],
    [Field(None, alias=a)] and [Field(None, alias=a, exclude=True)]. *)
Definition req (n a : string) (t : ftype) := mkField n a t None false.
Definition req_x (n a : string) (t : ftype) := mkField n a t None true.
Definition opt (n a : string) (t : ftype) := mkField n a t (Some VNone) false.
Definition opt_x (n a : string) (t : ftype) := mkField n a t (Some VNone) true.

Definition Location : list (field ftype) :=
  [ req "address_one" "address1" TStr;
    req "address_two" "address2" (TOptional TStr);
    req "city" "city" TStr;
    opt "country" "country" (TOptional TStr);
    opt "distance" "distance" (TOptional TFloat);
    req "latitude" "latitude" TFloat;
    opt "location_name" "locationName" (TOptional TStr);
    req "longitude" "longitude" TFloat;
    req "phone_number" "phone" TStr;
    opt "postal_code" "postalCode" (TOptional TStr);
    opt "state" "state" (TOptional TStr) ].

Definition Coach : list (field ftype) :=
  [ req "coach_uuid" "coachUUId" TStr;
    req "name" "name" TStr;
    req "first_name" "firstName" TStr;
    req "last_name" "lastName" TStr;
    req_x "image_url" "imageUrl" TStr;
    opt_x "profile_picture_url" "profilePictureUrl" (TOptional TStr) ].

Definition Currency : list (field ftype) :=
  [ req "currency_alphabetic_code" "currencyAlphabeticCode" TStr ].

Definition DefaultCurrency : list (field ftype) :=
  [ req "currency_id" "currencyId" TInt;
    req "currency" "currency" (TModel Currency) ].

Definition StudioLocationCountry : list (field ftype) :=
  [ req "country_currency_code" "countryCurrencyCode" TStr;
    req "default_currency" "defaultCurrency" (TModel DefaultCurrency) ].

Definition StudioLocation : list (field ftype) :=
  [ req "latitude" "latitude" TFloat;
    req "longitude" "longitude" TFloat;
    req "phone_number" "phoneNumber" TStr;
    req "physical_city" "physicalCity" TStr;
    req "physical_address" "physicalAddress" TStr;
    req "physical_address2" "physicalAddress2" (TOptional TStr);
    req "physical_state" "physicalState" TStr;
    req "physical_postal_code" "physicalPostalCode" TStr;
    req_x "physical_region" "physicalRegion" TStr;
    req_x "physical_country_id" "physicalCountryId" TInt;
    req "physical_country" "physicalCountry" TStr;
    req_x "country" "country" (TModel StudioLocationCountry) ].

Definition Studio : list (field ftype) :=
  [ req "studio_uuid" "studioUUId" TStr;
    req "studio_name" "studioName" TStr;
    opt "description" "description" (TOptional TStr);
    req_x "contact_email" "contactEmail" TStr;
    req "status" "status" TStudioStatus;
    req_x "logo_url" "logoUrl" (TOptional TStr);
    req "time_zone" "timeZone" TStr;
    req_x "mbo_studio_id" "mboStudioId" TInt;
    req "studio_id" "studioId" TInt;
    opt "allows_cr_waitlist" "allowsCRWaitlist" (TOptional TBool);
    req_x "cr_waitlist_flag_last_updated" "crWaitlistFlagLastUpdated" TDatetime;
    req_x "studio_location" "studioLocation" (TModel StudioLocation) ].

Definition OtfClass : list (field ftype) :=
  [ req "class_uuid" "classUUId" TStr;
    req "name" "name" TStr;
    opt_x "description" "description" (TOptional TStr);
    req "starts_at_local" "startDateTime" TDatetime;
    req "ends_at_local" "endDateTime" TDatetime;
    req "is_available" "isAvailable" TBool;
    req "is_cancelled" "isCancelled" TBool;
    req "program_name" "programName" TStr;
    req "coach_id" "coachId" TInt;
    req "studio" "studio" (TModel Studio);
    req "coach" "coach" (TModel Coach);
    req "location" "location" (TModel Location);
    opt "virtual_class" "virtualClass" (TOptional TBool) ].

Definition Member : list (field ftype) :=
  [ req "member_uuid" "memberUUId" TStr;
    req "first_name" "firstName" TStr;
    req "last_name" "lastName" TStr;
    req "email" "email" TStr;
    req "phone_number" "phoneNumber" TStr;
    req "gender" "gender" TStr;
    req_x "cc_last_4" "ccLast4" TStr ].

Definition Booking : list (field ftype) :=
  [ req "class_booking_id" "classBookingId" TInt;
    req "class_booking_uuid" "classBookingUUId" TStr;
    req "studio_id" "studioId" TInt;
    req "class_id" "classId" TInt;
    req "is_intro" "isIntro" TBool;
    req "member_id" "memberId" TInt;
    req_x "mbo_member_id" "mboMemberId" TStr;
    req_x "mbo_class_id" "mboClassId" TInt;
    opt_x "mbo_visit_id" "mboVisitId" (TOptional TInt);
    req_x "mbo_waitlist_entry_id" "mboWaitlistEntryId" (TOptional TInt);
    req_x "mbo_sync_message" "mboSyncMessage" (TOptional TStr);
    req "status" "status" TBookingStatus;
    opt "booked_date" "bookedDate" (TOptional TDatetime);
    req "checked_in_date" "checkedInDate" (TOptional TDatetime);
    req "cancelled_date" "cancelledDate" (TOptional TDatetime);
    req_x "created_by" "createdBy" TStr;
    req "created_date" "createdDate" TDatetime;
    req_x "updated_by" "updatedBy" TStr;
    req "updated_date" "updatedDate" TDatetime;
    req "is_deleted" "isDeleted" TBool;
    req_x "member" "member" (TModel Member);
    opt "waitlist_position" "waitlistPosition" (TOptional TInt);
    req "otf_class" "class" (TModel OtfClass);
    opt "is_home_studio" "is_home_studio" (TOptional TBool) ].

(** [cls.model_fields], by name, in declaration order: the fields the
    class declares in [bookings.py]. *)
Definition model_fields (fs : list (field ftype)) : list string := map fname fs.

End Schema.

(* ===================================================================== *)
(** ** The model layer: parsing and re-serialization *)
(* ===================================================================== *)

Module Model.

Definition subpath (path name : string) : string :=
  if String.eqb path "" then name else path +:+ "." +:+ name.

Section Parse.

(** The coercions of the validation library, for a value that is not
    already of the declared type: each takes the value as a value of the
    type, or refuses it. *)
Variable coerce_str : pyval -> option string.
Variable coerce_int : pyval -> option Z.
Variable coerce_float : pyval -> option string.
Variable coerce_bool : pyval -> option bool.
Variable coerce_datetime : pyval -> option Z.

(** The fields of one entity, read in declaration order from the payload
    [d], each through [rec] at its own type. *)
Definition validate_fields (rec : ftype -> string -> pyval -> result fvalue)
    (path : string) (d : list (string * pyval)) :
    list (field ftype) -> result (list (string * fvalue)) :=
  fix go (fs : list (field ftype)) : result (list (string * fvalue)) :=
    match fs with
    | [] => Ok []
    | f :: r =>
        match f with
        | mkField n a t dflt _ =>
            let here :=
              match Dict.get d a with
              | Some x => rec t (subpath path n) x
              | None =>
                  match dflt with
                  | Some dv => Ok (FLeaf dv)
                  | None => Raise (ValidationError (subpath path n) "field required")
                  end
              end in
            match here with
            | Raise e => Raise e
            | Ok fv =>
                match go r with
                | Raise e => Raise e
                | Ok e => Ok ((n, fv) :: e)
                end
            end
        end
    end.

(** Modelled from the spec: the generic [parse] of the entity base class
    [OtfItemBase] (otf_api/models/base.py and the validation library
    under it are not under src).  Each declared field is read from its
    alias; a missing field takes its default or fails with
    [ValidationError]; a value of the declared type is taken as it is,
    any other value is coerced to the type, and a coercion that fails
    (text that is no number where a number is expected) fails with
    [ValidationError]; an enum matches its value set case-insensitively;
    a nested entity is parsed by the same contract and its failure names
    the dotted path. *)
Fixpoint validate (t : ftype) (path : string) (v : pyval) {struct t} : result fvalue :=
  match t with
  | TStr =>
      match v with
      | VStr _ => Ok (FLeaf v)
      | _ =>
          match coerce_str v with
          | Some s => Ok (FLeaf (VStr s))
          | None => Raise (ValidationError path "string expected")
          end
      end
  | TInt =>
      match v with
      | VInt _ => Ok (FLeaf v)
      | _ =>
          match coerce_int v with
          | Some z => Ok (FLeaf (VInt z))
          | None => Raise (ValidationError path "integer expected")
          end
      end
  | TFloat =>
      match v with
      | VFloat _ => Ok (FLeaf v)
      | _ =>
          match coerce_float v with
          | Some r => Ok (FLeaf (VFloat r))
          | None => Raise (ValidationError path "number expected")
          end
      end
  | TBool =>
      match v with
      | VBool _ => Ok (FLeaf v)
      | _ =>
          match coerce_bool v with
          | Some b => Ok (FLeaf (VBool b))
          | None => Raise (ValidationError path "boolean expected")
          end
      end
  | TDatetime =>
      match coerce_datetime v with
      | Some ts => Ok (FDatetime ts)
      | None => Raise (ValidationError path "timestamp expected")
      end
  | TStudioStatus =>
      match v with
      | VStr s =>
          match find (fun m => String.eqb (PyStr.lower (StudioStatus.value m)) (PyStr.lower s))
                  StudioStatus.members with
          | Some m => Ok (FStudioStatus m)
          | None => Raise (ValidationError path "not a studio status")
          end
      | _ => Raise (ValidationError path "not a studio status")
      end
  | TBookingStatus =>
      match v with
      | VStr s =>
          match find (fun m => String.eqb (PyStr.lower (BookingStatus.value m)) (PyStr.lower s))
                  BookingStatus.members with
          | Some m => Ok (FBookingStatus m)
          | None => Raise (ValidationError path "not a booking status")
          end
      | _ => Raise (ValidationError path "not a booking status")
      end
  | TOptional t' =>
      match v with
      | VNone => Ok (FLeaf VNone)
      | _ => validate t' path v
      end
  | TModel fs =>
      match v with
      | VDict d =>
          match validate_fields validate path d fs with
          | Ok e => Ok (FModel e)
          | Raise e => Raise e
          end
      | _ => Raise (ValidationError path "object expected")
      end
  end.

(** Building the entity of the class with fields [fs] from a payload. *)
Definition parse (fs : list (field ftype)) (raw : pyval) : result (list (string * fvalue)) :=
  match raw with
  | VDict d => validate_fields validate "" d fs
  | _ => Raise (ValidationError "" "object expected")
  end.

(** A value that parsing made at a type: what validating some payload
    gave, or the default of a missing field. *)
Definition parsed (t : ftype) (v : fvalue) : Prop :=
  (exists path raw, validate t path raw = Ok v) \/ (exists x, v = FLeaf x).

End Parse.

(** The fields of one entity that go to the output, in declaration order,
    each through [rec] at its own type. *)
Definition dump_fields (rec : ftype -> fvalue -> fvalue) (e : list (string * fvalue)) :
    list (field ftype) -> list (string * fvalue) :=
  fix go (fs : list (field ftype)) : list (string * fvalue) :=
    match fs with
    | [] => []
    | f :: r =>
        match f with
        | mkField n _ t _ x =>
            if x then go r
            else match Dict.get e n with
                 | Some v => (n, rec t v) :: go r
                 | None => go r
                 end
        end
    end.

(** Modelled from the spec: re-serialization for display, of the entity
    base class (not under src): the fields marked exclude are omitted,
    at every depth, and every other field is given with its value. *)
Fixpoint dump_value (t : ftype) (v : fvalue) {struct t} : fvalue :=
  match t with
  | TOptional t' => dump_value t' v
  | TModel fs =>
      match v with
      | FModel e => FModel (dump_fields dump_value e fs)
      | _ => v
      end
  | _ => v
  end.

Definition dump (fs : list (field ftype)) (e : list (string * fvalue)) : list (string * fvalue) :=
  dump_fields dump_value e fs.

(** A type whose values hold no nested entity. *)
Fixpoint flat (t : ftype) : bool :=
  match t with
  | TModel _ => false
  | TOptional t' => flat t'
  | _ => true
  end.

(** A payload value that is already of the declared type: a text under
    a text field, an integer, a float, a boolean under theirs, and
    [None] under an optional field. *)
Fixpoint typed (t : ftype) (x : pyval) : bool :=
  match t with
  | TStr => match x with VStr _ => true | _ => false end
  | TInt => match x with VInt _ => true | _ => false end
  | TFloat => match x with VFloat _ => true | _ => false end
  | TBool => match x with VBool _ => true | _ => false end
  | TOptional t' => match x with VNone => true | _ => typed t' x end
  | _ => false
  end.

(** The fields that go to the output. *)
Definition included (fs : list (field ftype)) : list (field ftype) :=
  List.filter (fun f => negb (exclude f)) fs.

(** A schema whose entity classes, at every depth, declare no field name
    twice. *)
Fixpoint well_formed (t : ftype) : bool :=
  match t with
  | TOptional t' => well_formed t'
  | TModel fs =>
      bool_decide (NoDup (map fname fs))
      && (fix all (l : list (field ftype)) : bool :=
            match l with
            | [] => true
            | f :: r =>
                match f with
                | mkField _ _ t' _ _ => well_formed t' && all r
                end
            end) fs
  | _ => true
  end.

(** The fields of the entity class that a type holds, through any
    optional. *)
Fixpoint fields_of (t : ftype) : option (list (field ftype)) :=
  match t with
  | TModel fs => Some fs
  | TOptional t' => fields_of t'
  | _ => None
  end.

Definition field_named (fs : list (field ftype)) (n : string) : option (field ftype) :=
  List.find (fun f => String.eqb n (fname f)) fs.

(** Where a path of field names leads from a type: whether a field on
    the way is marked exclude, and the type of the last field. *)
Fixpoint walk (t : ftype) (segs : list string) : option (bool * ftype) :=
  match segs with
  | [] => Some (false, t)
  | s :: r =>
      match fields_of t with
      | Some fs =>
          match field_named fs s with
          | Some f =>
              match walk (ftyp f) r with
              | Some (hidden, t') => Some (exclude f || hidden, t')
              | None => None
              end
          | None => None
          end
      | None => None
      end
  end.

(** The value found under a path of names in nested entities. *)
Fixpoint at_path (segs : list string) (v : fvalue) : option fvalue :=
  match segs with
  | [] => Some v
  | s :: r =>
      match v with
      | FModel e =>
          match Dict.get e s with
          | Some x => at_path r x
          | None => None
          end
      | _ => None
      end
  end.

End Model.

(* ===================================================================== *)
(** ** [bookings.py]: column headers and the tabular projection *)
(* ===================================================================== *)

Module Columns.

Definition overrides : list (string * string) :=
  [ ("day_of_week", "Class DoW");
    ("date", "Class Date");
    ("time", "Class Time");
    ("duration", "Class Duration");
    ("name", "Class Name");
    ("is_home_studio", "Home Studio");
    ("is_booked", "Booked") ].

Section Headers.

(** [inflection.humanize], a library function. *)
Variable humanize : string -> string.

(** The body shared, word for word, by [OtfClass.attr_to_column_header]
    and the second half of [Booking.attr_to_column_header]. *)
Definition header_of (model_fields : list string) (attr : string) : string :=
  let attr_map :=
    Dict.comprehension (fun k => k) humanize (fun _ => true) model_fields in
  let attr_map := Dict.update attr_map overrides in
  default attr (Dict.get attr_map attr).

Definition OtfClass_attr_to_column_header (attr : string) : string :=
  header_of (Schema.model_fields Schema.OtfClass) attr.

Definition Booking_attr_to_column_header (attr : string) : string :=
  if PyStr.startswith attr "otf_class" then
    OtfClass_attr_to_column_header (List.last (PyStr.split "." attr) "")
  else header_of (Schema.model_fields Schema.Booking) attr.

Definition show_bookings_columns : list string :=
  [ "otf_class.day_of_week";
    "otf_class.date";
    "otf_class.time";
    "otf_class.duration";
    "otf_class.name";
    "status";
    "otf_class.studio.studio_name";
    "is_home_studio" ].

(** [BookingList.to_table].  [to_table] of the base class is not under
    src and is a parameter here; it is called on the list object with
    the columns and nothing else. *)
Definition BookingList_to_table {L T : Type} (super_to_table : L -> list string -> T)
    (self : L) (columns : option (list string)) : T :=
  let columns := match columns with
                 | None | Some [] => show_bookings_columns
                 | Some c => c
                 end in
  super_to_table self columns.

End Headers.

End Columns.

(* ===================================================================== *)
(** ** Reading a call of the dispatcher *)
(* ===================================================================== *)

(** The params mapping the caller handed over: nothing when [params] is
    [None]. *)
Definition params_given (w : World) (params : option loc) : list (string * pyval) :=
  match params with
  | None => []
  | Some l => default [] (heap w !! l)
  end.

(** An entry whose value is not [None]. *)
Definition not_none (kv : string * pyval) : bool := negb (PyVal.is_none (snd kv)).

(** The three headers of an authenticated session. *)
Definition auth_headers (u : Api.User) : list (string * pyval) :=
  [("Authorization", VStr ("Bearer " +:+ Api.id_token (Api.cognito u)));
   ("Content-Type", VStr "application/json");
   ("Accept", VStr "application/json")].

(** The headers the caller supplied among the keyword arguments:
    [Some (Some h)] for a mapping with contents [h], [Some None] when
    there is no [headers] argument, [None] when the argument is not a
    mapping. *)
Definition headers_given (w : World) (kwargs : list (string * arg)) :
    option (option (list (string * pyval))) :=
  match Dict.get kwargs "headers" with
  | None => Some None
  | Some (ARef l) => Some (Some (default [] (heap w !! l)))
  | Some (AVal (VDict d)) => Some (Some d)
  | Some (AVal _) => None
  end.

(** The keyword arguments that go on to [session.request]. *)
Definition kwargs_passed (kwargs : list (string * arg)) : list (string * arg) :=
  match Dict.get kwargs "headers" with
  | Some _ => Dict.remove kwargs "headers"
  | None => kwargs
  end.

(** The heap after the call: a referenced headers mapping is overwritten
    with [hdrs], nothing else is touched. *)
Definition heap_after (w : World) (kwargs : list (string * arg))
    (hdrs : list (string * pyval)) : gmap loc (list (string * pyval)) :=
  match Dict.get kwargs "headers" with
  | Some (ARef l) => <[l := hdrs]> (heap w)
  | _ => heap w
  end.

(** The text of the debug message. *)
Definition debug_message (w : World) (method full_url : string)
    (params1 : list (string * pyval)) (kwargs : list (string * arg)) : string :=
  "Making " +:+ PyStr.repr method +:+ " request to " +:+ full_url
  +:+ ", params: " +:+ PyVal.repr (VDict params1)
  +:+ ", kwargs: " +:+ kwargs_text (heap w) kwargs.

(** A 2xx status. *)
Definition is_2xx (st : Z) : bool := (200 <=? st) && (st <? 300).

(* ===================================================================== *)
(** ** A concrete session, for the examples *)
(* ===================================================================== *)

Module Demo.

(** The URL as the spec writes it, for a path that starts with a slash. *)
Definition URL_build (scheme host path : string) : string :=
  scheme +:+ "://" +:+ host +:+ path.

(** A server that answers 404 under [/missing], and 200 elsewhere, with
    the request's method as the body. *)
Definition server (req : Request) : Response :=
  if String.eqb (req_url req) "https://api.orangetheory.co/missing"
  then mkResponse 404 "Not Found"
  else mkResponse 200 (req_method req).

(** A decoder that knows two texts. *)
Definition json_loads (s : string) : option pyval :=
  if String.eqb s "GET" then Some (VDict [("ok", VBool true)])
  else if String.eqb s "POST" then Some VNone
  else None.

Definition api : Api.t := Api.mkApi (Some (Api.mkUser (Api.mkCognito "tok"))).

Definition logged_out : Api.t := Api.mkApi None.

(** The caller holds two dictionaries: a params mapping at 1 and a
    headers mapping at 2. *)
Definition world : World :=
  mkWorld
    (<[1%positive := [("page", VInt 1); ("studio", VNone); ("q", VStr "x")]]>
       (<[2%positive := [("Accept", VStr "text/html"); ("X-Trace", VStr "1")]]> ∅))
    [].

Definition run (method url : string) (params : option loc)
    (kwargs : list (string * arg)) : result pyval * World :=
  Api._do URL_build server json_loads api method Api.API_BASE_URL url params kwargs world.

(** Modelled from the spec: the coercions of the validation library.
    Where a number is expected, text that reads as a number is taken as
    that number and any other text is refused; an integer is taken as a
    float; a timestamp is read from its text (two texts are known here,
    as seconds since the epoch); nothing else is coerced. *)
Fixpoint digits (s : string) (acc : Z) : option Z :=
  match s with
  | EmptyString => Some acc
  | String c r =>
      let n := N_of_ascii c in
      if ((48 <=? n) && (n <=? 57))%N then digits r (10 * acc + Z.of_N (n - 48)) else None
  end.

Definition int_of_text (s : string) : option Z :=
  match s with
  | EmptyString => None
  | String c r =>
      if Ascii.eqb c "-" then
        match r with
        | EmptyString => None
        | _ => option_map Z.opp (digits r 0)
        end
      else digits s 0
  end.

Definition coerce_str (v : pyval) : option string := None.

Definition coerce_int (v : pyval) : option Z :=
  match v with
  | VStr s => int_of_text s
  | _ => None
  end.

Definition coerce_float (v : pyval) : option string :=
  match v with
  | VInt z => Some (PyStr.repr_int z +:+ ".0")
  | _ => None
  end.

Definition coerce_bool (v : pyval) : option bool := None.

Definition coerce_datetime (v : pyval) : option Z :=
  match v with
  | VStr s =>
      if String.eqb s "2024-01-01T10:00:00" then Some 1704103200
      else if String.eqb s "2024-01-01T11:00:00" then Some 1704106800
      else None
  | _ => None
  end.

Definition parse (fs : list (field ftype)) (raw : pyval) : result (list (string * fvalue)) :=
  Model.parse coerce_str coerce_int coerce_float coerce_bool coerce_datetime fs raw.

Definition coach_payload : pyval :=
  VDict [("coachUUId", VStr "c-1"); ("name", VStr "Sam Lee");
         ("firstName", VStr "Sam"); ("lastName", VStr "Lee");
         ("imageUrl", VStr "https://img/sam.png")].

Definition member_payload : pyval :=
  VDict [("memberUUId", VStr "m-1"); ("firstName", VStr "Ana"); ("lastName", VStr "Ruiz");
         ("email", VStr "ana@example.com"); ("phoneNumber", VStr "555-0100");
         ("gender", VStr "F"); ("ccLast4", VStr "4242")].

Definition studio_payload (studio_name : string) : pyval :=
  VDict [("studioUUId", VStr "s-1"); ("studioName", VStr studio_name);
         ("contactEmail", VStr "studio@example.com"); ("status", VStr "ACTIVE");
         ("logoUrl", VNone); ("timeZone", VStr "America/Los_Angeles");
         ("mboStudioId", VInt 77); ("studioId", VInt 7);
         ("crWaitlistFlagLastUpdated", VStr "2024-01-01T10:00:00");
         ("studioLocation",
          VDict [("latitude", VFloat "33.7"); ("longitude", VInt (-117));
                 ("phoneNumber", VStr "555-0101"); ("physicalCity", VStr studio_name);
                 ("physicalAddress", VStr "1 Main St"); ("physicalAddress2", VNone);
                 ("physicalState", VStr "CA"); ("physicalPostalCode", VStr "92780");
                 ("physicalRegion", VStr "West"); ("physicalCountryId", VInt 1);
                 ("physicalCountry", VStr "United States");
                 ("country",
                  VDict [("countryCurrencyCode", VStr "USD");
                         ("defaultCurrency",
                          VDict [("currencyId", VInt 1);
                                 ("currency",
                                  VDict [("currencyAlphabeticCode", VStr "USD")])])])])].

Definition class_payload (studio_name : string) : pyval :=
  VDict [("classUUId", VStr "abc-123"); ("name", VStr "Orange 60");
         ("startDateTime", VStr "2024-01-01T10:00:00");
         ("endDateTime", VStr "2024-01-01T11:00:00");
         ("isAvailable", VBool true); ("isCancelled", VBool false);
         ("programName", VStr "Group Fitness"); ("coachId", VInt 5);
         ("studio", studio_payload studio_name);
         ("coach", coach_payload);
         ("location",
          VDict [("address1", VStr "1 Main St"); ("address2", VNone);
                 ("city", VStr studio_name); ("latitude", VFloat "33.7");
                 ("longitude", VFloat "-117.8"); ("phone", VStr "555-0101")])].

Definition booking_payload (id : Z) (studio_name : string) : pyval :=
  VDict [("classBookingId", VInt id); ("classBookingUUId", VStr "b-1");
         ("studioId", VInt 7); ("classId", VInt 9); ("isIntro", VBool false);
         ("memberId", VInt 3); ("mboMemberId", VStr "100033");
         ("mboClassId", VInt 40); ("mboWaitlistEntryId", VNone);
         ("mboSyncMessage", VNone); ("status", VStr "booked");
         ("checkedInDate", VNone); ("cancelledDate", VNone);
         ("createdBy", VStr "sync"); ("createdDate", VStr "2024-01-01T10:00:00");
         ("updatedBy", VStr "sync"); ("updatedDate", VStr "2024-01-01T11:00:00");
         ("isDeleted", VBool false); ("member", member_payload);
         ("class", class_payload studio_name)].

(** The entity of a payload, or the empty entity when it does not parse. *)
Definition entity (fs : list (field ftype)) (raw : pyval) : list (string * fvalue) :=
  match parse fs raw with
  | Ok e => e
  | Raise _ => []
  end.

(** The payload's value under a key. *)
Definition payload_at (raw : pyval) (k : string) : option pyval :=
  match raw with
  | VDict d => Dict.get d k
  | _ => None
  end.

(** A currency payload whose identifier is written as text. *)
Definition currency_payload : pyval :=
  VDict [("currencyId", VStr "840");
         ("currency", VDict [("currencyAlphabeticCode", VStr "USD")])].

End Demo.

(* ===================================================================== *)
(** ** [bookings.py]: the status lists and the row style *)
(* ===================================================================== *)

(** [BookingStatus.all_statuses]: the values of [cls.__members__], in
    order. *)
Definition BookingStatus_all_statuses : list BookingStatus.t :=
  map snd BookingStatus._member_map_.

Module BookingStyle.

(** [a == b] between members of a [str]-mixed enum: their values are
    compared as text. *)
Definition status_eq (a b : BookingStatus.t) : bool :=
  String.eqb (BookingStatus.value a) (BookingStatus.value b).

Section GetStyle.

(** The style type of the rendering library, with its constructor
    [Style(color=..., strike=...)], and [get_style] of the base class. *)
Variable Style : Type.
Variable Style_ : string -> option bool -> Style.
Variable super_get_style : bool -> Style.

Definition get_style (status : BookingStatus.t) (is_selected : bool) : Style :=
  let style := super_get_style is_selected in
  if status_eq status BookingStatus.Cancelled then Style_ "red" None
  else if status_eq status BookingStatus.Waitlisted then Style_ "yellow" None
  else if status_eq status BookingStatus.CheckedIn && is_selected then
    Style_ "blue" (Some true)
  else if status_eq status BookingStatus.CheckedIn then Style_ "grey58" None
  else style.

End GetStyle.

End BookingStyle.

(* ===================================================================== *)
(** ** [otf_api/__init__.py]: what the package imports and exports *)
(* ===================================================================== *)

Module Package.

(** The names bound by the import statements, in the order written. *)
Definition imported : list string :=
  [ "classes_api"; "member_api"; "studios_api"; "telemetry_api";
    "Api";
    "User";
    "ALL_CLASS_STATUS"; "ALL_HISTORY_CLASS_STATUS"; "ALL_STUDIO_STATUS";
    "BookingList"; "BookingStatus"; "ChallengeTrackerContent";
    "ChallengeTrackerDetailList"; "ChallengeType"; "EquipmentType";
    "FavoriteStudioList"; "HistoryClassStatus"; "LatestAgreement";
    "MemberDetail"; "MemberMembership"; "MemberPurchaseList"; "OtfClassList";
    "OutOfStudioWorkoutHistoryList"; "PerformanceSummaryDetail";
    "PerformanceSummaryList"; "StudioDetail"; "StudioDetailList";
    "StudioServiceList"; "StudioStatus"; "TelemetryHrHistory"; "TelemetryItem";
    "TelemetryMaxHr"; "TotalClasses"; "WorkoutList" ].

Definition __all__ : list string :=
  [ "Api"; "User"; "member_api"; "BookingList"; "ChallengeTrackerContent";
    "ChallengeTrackerDetailList"; "ChallengeType"; "BookingStatus"; "EquipmentType";
    "HistoryClassStatus"; "LatestAgreement"; "MemberDetail"; "MemberMembership";
    "MemberPurchaseList"; "OutOfStudioWorkoutHistoryList"; "StudioServiceList";
    "StudioStatus"; "TotalClasses"; "WorkoutList"; "FavoriteStudioList";
    "OtfClassList"; "classes_api"; "studios_api"; "telemetry_api";
    "TelemetryHrHistory"; "TelemetryItem"; "TelemetryMaxHr"; "StudioDetail";
    "StudioDetailList"; "ALL_CLASS_STATUS"; "ALL_HISTORY_CLASS_STATUS";
    "ALL_STUDIO_STATUS"; "PerformanceSummaryDetail"; "PerformanceSummaryList" ].

End Package.

(* ===================================================================== *)
(** ** More concrete inputs, for the examples *)
(* ===================================================================== *)

Module Demo2.

(** The session of [Demo] after its token was refreshed. *)
Definition refreshed : Api.t := Api.mkApi (Some (Api.mkUser (Api.mkCognito "tok2"))).

(** A style made of its two attributes. *)
Record Style : Type := mkStyle { color : string; strike : option bool }.

Definition plain_style (is_selected : bool) : Style :=
  if is_selected then mkStyle "white" None else mkStyle "default" None.

End Demo2.

(* ===================================================================== *)
(** * Properties *)
(* ===================================================================== *)

(** ** Dictionaries *)

Section DictFacts.
Context {V : Type}.
Implicit Types (d e : list (string * V)) (k : string) (v : V).

Lemma get_set d k v k' :
  Dict.get (Dict.set d k v) k' = if String.eqb k' k then Some v else Dict.get d k'.
Proof.
  induction d as [|[k0 v0] d IH]; simpl.
  - reflexivity.
  - destruct (String.eqb_spec k k0) as [->|Hk]; simpl.
    + destruct (String.eqb k' k0); reflexivity.
    + rewrite IH. destruct (String.eqb_spec k' k0) as [->|Hk'].
      * destruct (String.eqb_spec k0 k); congruence.
      * reflexivity.
Qed.

Lemma get_None_not_in d k : Dict.get d k = None <-> ~ In k (Dict.keys d).
Proof.
  induction d as [|[k0 v0] d IH]; simpl.
  - tauto.
  - destruct (String.eqb_spec k k0) as [->|Hk].
    + split; [discriminate | tauto].
    + rewrite IH. split; [intros H [E|I]; congruence | tauto].
Qed.

Lemma get_Some_in d k v : Dict.get d k = Some v -> In (k, v) d.
Proof.
  induction d as [|[k0 v0] d IH]; simpl; [discriminate|].
  destruct (String.eqb_spec k k0) as [->|Hk].
  - intros [= ->]. now left.
  - intros H. right. now apply IH.
Qed.

Lemma set_fresh d k v : ~ In k (Dict.keys d) -> Dict.set d k v = (d ++ [(k, v)])%list.
Proof.
  induction d as [|[k0 v0] d IH]; simpl; intros H.
  - reflexivity.
  - destruct (String.eqb_spec k k0) as [->|Hk]; [tauto|].
    rewrite IH; [reflexivity | tauto].
Qed.

(** [update] lets the updating dictionary win on every key it holds and
    leaves every other key as it was. *)
Lemma get_update d e k :
  List.NoDup (Dict.keys e) ->
  Dict.get (Dict.update d e) k =
    match Dict.get e k with Some v => Some v | None => Dict.get d k end.
Proof.
  unfold Dict.update. revert d.
  induction e as [|[k0 v0] e IH]; simpl; intros d Hnd.
  - reflexivity.
  - inversion Hnd as [|? ? Hnotin Hnd']; subst.
    rewrite IH by assumption. rewrite get_set.
    destruct (String.eqb_spec k k0) as [->|Hk].
    + apply get_None_not_in in Hnotin. rewrite Hnotin. reflexivity.
    + reflexivity.
Qed.

(** Over items with distinct keys a comprehension is a filter followed
    by a map: nothing is overwritten, the order is kept. *)
Lemma comprehension_items (keep : string * V -> bool) (d : list (string * V)) :
  List.NoDup (Dict.keys d) ->
  Dict.comprehension fst snd keep d = List.filter keep d.
Proof.
  unfold Dict.comprehension.
  assert (G : forall acc,
             List.NoDup (Dict.keys d) ->
             (forall k, In k (Dict.keys d) -> ~ In k (Dict.keys acc)) ->
             fold_left (fun acc x => if keep x then Dict.set acc (fst x) (snd x) else acc) d acc
             = (acc ++ List.filter keep d)%list).
  { induction d as [|[k0 v0] d IH]; simpl; intros acc Hnd Hfresh.
    - now rewrite app_nil_r.
    - inversion Hnd as [|? ? Hnotin Hnd']; subst.
      destruct (keep (k0, v0)) eqn:Hkeep; simpl.
      + rewrite set_fresh by (apply Hfresh; now left).
        rewrite IH; [now rewrite <- app_assoc | assumption |].
        intros k Hk Hin. unfold Dict.keys in Hin.
        rewrite map_app in Hin. apply in_app_or in Hin as [Hin|Hin].
        * apply (Hfresh k); [now right | exact Hin].
        * simpl in Hin. destruct Hin as [<-|[]]. exact (Hnotin Hk).
      + apply IH; [assumption |].
        intros k Hk. apply Hfresh. now right. }
  intros Hnd. rewrite G; [reflexivity | assumption | intros k _ []].
Qed.

Lemma get_filter (keep : string * V -> bool) (d : list (string * V)) k :
  List.NoDup (Dict.keys d) ->
  Dict.get (List.filter keep d) k =
    match Dict.get d k with
    | Some v => if keep (k, v) then Some v else None
    | None => None
    end.
Proof.
  induction d as [|[k0 v0] d IH]; simpl; intros Hnd.
  - reflexivity.
  - inversion Hnd as [|? ? Hnotin Hnd']; subst.
    destruct (String.eqb_spec k k0) as [->|Hk].
    + destruct (keep (k0, v0)); simpl.
      * now rewrite String.eqb_refl.
      * rewrite IH by assumption.
        apply get_None_not_in in Hnotin. now rewrite Hnotin.
    + destruct (keep (k0, v0)); simpl.
      * destruct (String.eqb_spec k k0); [congruence|]. now apply IH.
      * now apply IH.
Qed.

End DictFacts.

(** ** The status enums *)

(** Any casing of a value of [BookingStatus] is resolved by
    [get_case_insensitive] to that value. *)
Lemma get_case_insensitive_any_casing (s : string) (m : BookingStatus.t) :
  PyStr.lower s = PyStr.lower (BookingStatus.value m) ->
  BookingStatus.get_case_insensitive s = Ok (BookingStatus.value m).
Proof.
  intros H. unfold BookingStatus.get_case_insensitive. rewrite H.
  destruct m; reflexivity.
Qed.

(** Any casing of a member name of [BookingStatus] is resolved by
    [get_from_key_insensitive] to that member. *)
Lemma get_from_key_insensitive_any_casing (s : string) (m : BookingStatus.t) :
  PyStr.lower s = PyStr.lower (BookingStatus.name m) ->
  BookingStatus.get_from_key_insensitive s = Ok m.
Proof.
  intros H. unfold BookingStatus.get_from_key_insensitive. rewrite H.
  destruct m; reflexivity.
Qed.

(** The two enums declare the same member names in the same order. *)
Lemma enums_name_for_name :
  map BookingStatusCli.name BookingStatusCli.members
  = map BookingStatus.name BookingStatus.members.
Proof. reflexivity. Qed.

(** The guard [if not val] of [get_from_key_insensitive] is never taken:
    whatever the key, the lookup returns a member or dies in the
    dictionary subscript. *)
Lemma get_from_key_insensitive_outcome (key : string) :
  (exists m, BookingStatus.get_from_key_insensitive key = Ok m)
  \/ BookingStatus.get_from_key_insensitive key = Raise (KeyError (PyStr.lower key)).
Proof.
  unfold BookingStatus.get_from_key_insensitive.
  set (tbl := Dict.comprehension _ _ _ _).
  destruct (Dict.get tbl (PyStr.lower key)) as [actual|] eqn:E; [left | now right].
  apply get_Some_in in E. vm_compute in E.
  repeat (destruct E as [E|E]; [injection E as _ <-; eexists; reflexivity|]).
  destruct E.
Qed.

(** C1 (defect).  An unmatched string does not fail with the validation
    error the lookup is written to raise: ["bogus"] dies with [KeyError]
    in both lookups of [BookingStatus], the value spelling ["checked in"]
    dies the same way in the name-keyed lookup, and no key at all reaches
    the [ValueError] of [get_from_key_insensitive]: every call returns a
    member or raises [KeyError]. *)
Theorem C1_unmatched_lookup_is_KeyError :
  BookingStatus.get_from_key_insensitive "bogus" = Raise (KeyError "bogus")
  /\ BookingStatus.get_case_insensitive "bogus" = Raise (KeyError "bogus")
  /\ BookingStatus.get_from_key_insensitive "checked in" = Raise (KeyError "checked in")
  /\ forall key,
       (exists m, BookingStatus.get_from_key_insensitive key = Ok m)
       \/ BookingStatus.get_from_key_insensitive key = Raise (KeyError (PyStr.lower key)).
Proof.
  repeat split; try reflexivity.
  exact get_from_key_insensitive_outcome.
Qed.

(** C10 (defect).  [BookingStatusCli.to_standard_case_insensitive] ends
    in a lookup by VALUE in [BookingStatus], so a member name comes back
    as its member only where [BookingStatus] has the name as the value
    (Cancelled, Booked, Waitlisted); for the seven others, ["CheckedIn"]
    among them, the call raises [ValueError]. *)
Theorem C10_to_standard_misses_spaced_values :
  BookingStatusCli.to_standard_case_insensitive "CheckedIn"
    = Raise (ValueError "<BookingStatusCli.CheckedIn: 'CheckedIn'> is not a valid BookingStatus")
  /\ forall m : BookingStatus.t,
       BookingStatusCli.to_standard_case_insensitive (BookingStatus.name m)
       = if String.eqb (BookingStatus.name m) (BookingStatus.value m) then Ok m
         else Raise (ValueError
                ("<BookingStatusCli." +:+ BookingStatus.name m +:+ ": "
                 +:+ PyStr.repr (BookingStatus.name m) +:+ "> is not a valid BookingStatus")).
Proof.
  split; [reflexivity|]. intros m. destruct m; reflexivity.
Qed.

(** ** The dispatcher *)

Lemma sent_app (h : gmap loc (list (string * pyval))) (evs more : list event) :
  sent (mkWorld h (evs ++ more)) = (sent (mkWorld h evs) ++ sent (mkWorld h more))%list.
Proof. unfold sent. simpl. apply flat_map_app. Qed.

Lemma debug_log_app (h : gmap loc (list (string * pyval))) (evs more : list event) :
  debug_log (mkWorld h (evs ++ more))
  = (debug_log (mkWorld h evs) ++ debug_log (mkWorld h more))%list.
Proof. unfold debug_log. simpl. apply flat_map_app. Qed.

Lemma or_empty (d : list (string * pyval)) :
  (if PyVal.dict_truthy d then d else []) = d.
Proof. destruct d; reflexivity. Qed.

Section DispatcherFacts.

Variable URL_build : string -> string -> string -> string.
Variable server : Request -> Response.
Variable json_loads : string -> option pyval.

Implicit Types (self : Api.t) (u : Api.User) (w : World)
  (params : option loc) (kwargs : list (string * arg)).

(** What a call does once a user is logged in and the headers argument,
    if there is one, is a mapping. *)
Lemma do_run self u method base_url url params kwargs w oh :
  Api.user self = Some u ->
  headers_given w kwargs = Some oh ->
  let params1 := Dict.comprehension fst snd not_none (params_given w params) in
  let full_url := URL_build "https" base_url url in
  let hdrs := match oh with
              | Some h => Dict.update h (auth_headers u)
              | None => auth_headers u
              end in
  let req := mkRequest method full_url hdrs params1 (kwargs_passed kwargs) in
  Api._do URL_build server json_loads self method base_url url params kwargs w
  = (if is_2xx (status (server req)) then
       match json_loads (body (server req)) with
       | Some j => Ok j
       | None => Raise DecodeError
       end
     else Raise (HttpError (status (server req)) full_url (body (server req))),
     mkWorld (heap_after w kwargs hdrs)
       (events w ++ [Debug (debug_message w method full_url params1 kwargs); Sent req])).
Proof.
  intros Hu Hh. cbv zeta.
  unfold Api._do, Api.base_headers, headers_given, kwargs_passed, heap_after in *.
  rewrite Hu.
  assert (P : forall (k : list (string * pyval) -> M pyval),
            bind (match params with
                  | None => ret []
                  | Some l => bind (deref l)
                                (fun d => ret (if PyVal.dict_truthy d then d else []))
                  end) k w
            = k (params_given w params) w).
  { intros k. destruct params as [l|]; unfold bind, deref, ret, params_given; simpl;
      [now rewrite or_empty | reflexivity]. }
  rewrite P. clear P.
  unfold bind at 1. unfold repr_kwargs at 1. cbv beta iota.
  unfold bind at 1. unfold logger_debug at 1. cbv beta iota.
  destruct (Dict.get kwargs "headers") as [[v|l]|] eqn:Hk.
  - destruct v; try discriminate. injection Hh as <-.
    unfold bind, ret, raise, Api.session_request, Api.raise_for_status,
      Api.response_json, debug_message, is_2xx; simpl.
    rewrite <- app_assoc. simpl.
    destruct ((200 <=? _) && _); simpl;
      [destruct (json_loads _)|]; reflexivity.
  - injection Hh as <-.
    unfold bind, ret, raise, deref, store, Api.session_request, Api.raise_for_status,
      Api.response_json, debug_message, is_2xx; simpl.
    rewrite lookup_insert_eq. simpl.
    rewrite <- app_assoc. simpl.
    destruct ((200 <=? _) && _); simpl;
      [destruct (json_loads _)|]; reflexivity.
  - injection Hh as <-.
    unfold bind, ret, raise, Api.session_request, Api.raise_for_status,
      Api.response_json, debug_message, is_2xx; simpl.
    rewrite <- app_assoc. simpl.
    destruct ((200 <=? _) && _); simpl;
      [destruct (json_loads _)|]; reflexivity.
Qed.

(** What a call leaves in the event trace, whatever its arguments: the
    one debug message, then at most one request. *)
Lemma do_events self method base_url url params kwargs w :
  let params1 := Dict.comprehension fst snd not_none (params_given w params) in
  let full_url := URL_build "https" base_url url in
  exists tail,
    events (snd (Api._do URL_build server json_loads self method base_url url params kwargs w))
    = (events w ++ Debug (debug_message w method full_url params1 kwargs) :: tail)%list
    /\ (tail = [] \/ exists req, tail = [Sent req]).
Proof.
  cbv zeta.
  destruct (headers_given w kwargs) as [oh|] eqn:Hh;
    [destruct (Api.user self) as [u|] eqn:Hu|].
  - rewrite (do_run self u method base_url url params kwargs w oh Hu Hh). simpl.
    eexists. split; [reflexivity|]. right. eexists. reflexivity.
  - exists []. split; [|now left].
    unfold Api._do, Api.base_headers, headers_given in *. rewrite Hu.
    destruct params as [l|]; unfold bind, deref, ret, raise, repr_kwargs, logger_debug,
      params_given, debug_message; simpl; rewrite ?or_empty;
      (destruct (Dict.get kwargs "headers") as [[v|l0]|]; [destruct v| |]);
      try discriminate; reflexivity.
  - exists []. split; [|now left].
    unfold Api._do, headers_given in *.
    destruct params as [l|]; unfold bind, deref, ret, raise, repr_kwargs, logger_debug,
      params_given, debug_message; simpl; rewrite ?or_empty;
      (destruct (Dict.get kwargs "headers") as [[v|l0]|]; [destruct v| |]);
      try discriminate; reflexivity.
Qed.

End DispatcherFacts.

Section DispatcherClaims.

Variable URL_build : string -> string -> string -> string.
Variable server : Request -> Response.
Variable json_loads : string -> option pyval.

Implicit Types (self : Api.t) (u : Api.User) (w : World)
  (params : option loc) (kwargs : list (string * arg)).

(** C2.  The params that go out with the request are the caller's
    entries whose value is not [None], in their order and with their
    values; an entry whose value is [None] is gone; no params argument
    means no params. *)
Theorem C2_null_params_removed self u method base_url url params kwargs w oh :
  Api.user self = Some u ->
  headers_given w kwargs = Some oh ->
  List.NoDup (Dict.keys (params_given w params)) ->
  exists req,
    sent (snd (Api._do URL_build server json_loads self method base_url url params kwargs w))
    = (sent w ++ [req])%list
    /\ req_params req = List.filter not_none (params_given w params)
    /\ (forall k, Dict.get (req_params req) k
                  = match Dict.get (params_given w params) k with
                    | Some VNone => None
                    | other => other
                    end)
    /\ (params = None -> req_params req = []).
Proof.
  intros Hu Hh Hnd.
  rewrite (do_run URL_build server json_loads self u method base_url url params kwargs w oh Hu Hh).
  eexists. simpl. split; [|split; [|split]].
  - rewrite sent_app. destruct w as [h evs]. reflexivity.
  - simpl. now apply comprehension_items.
  - intros k. simpl. rewrite comprehension_items by assumption.
    rewrite get_filter by assumption.
    destruct (Dict.get (params_given w params) k) as [v|]; [|reflexivity].
    destruct v; reflexivity.
  - intros ->. reflexivity.
Qed.

(** C3.  The headers that go out are the caller's headers updated with
    the session's auth headers: on Authorization, Content-Type and Accept
    the auth value is sent, on every other key the caller's; with no
    headers argument exactly the auth headers are sent. *)
Theorem C3_auth_headers_win self u method base_url url params kwargs w oh :
  Api.user self = Some u ->
  headers_given w kwargs = Some oh ->
  exists req,
    sent (snd (Api._do URL_build server json_loads self method base_url url params kwargs w))
    = (sent w ++ [req])%list
    /\ req_headers req = match oh with
                         | Some h => Dict.update h (auth_headers u)
                         | None => auth_headers u
                         end
    /\ (forall k, Dict.get (req_headers req) k
                  = match Dict.get (auth_headers u) k with
                    | Some v => Some v
                    | None => match oh with
                              | Some h => Dict.get h k
                              | None => None
                              end
                    end)
    /\ Dict.get (req_headers req) "Authorization"
       = Some (VStr ("Bearer " +:+ Api.id_token (Api.cognito u)))
    /\ Dict.get (req_headers req) "Content-Type" = Some (VStr "application/json")
    /\ Dict.get (req_headers req) "Accept" = Some (VStr "application/json").
Proof.
  intros Hu Hh.
  rewrite (do_run URL_build server json_loads self u method base_url url params kwargs w oh Hu Hh).
  assert (Hnd : List.NoDup (Dict.keys (auth_headers u))).
  { unfold auth_headers, Dict.keys. simpl.
    repeat (constructor; [simpl; intuition discriminate|]). constructor. }
  assert (G : forall k,
             Dict.get (match oh with
                       | Some h => Dict.update h (auth_headers u)
                       | None => auth_headers u
                       end) k
             = match Dict.get (auth_headers u) k with
               | Some v => Some v
               | None => match oh with Some h => Dict.get h k | None => None end
               end).
  { intros k. destruct oh as [h|].
    - now apply get_update.
    - destruct (Dict.get (auth_headers u) k); reflexivity. }
  eexists. simpl. split; [|split; [|split; [|split; [|split]]]].
  - rewrite sent_app. destruct w as [h evs]. reflexivity.
  - reflexivity.
  - exact G.
  - rewrite G. reflexivity.
  - rewrite G. reflexivity.
  - rewrite G. reflexivity.
Qed.

(** C4.  One request goes out and is never repeated.  When the status of
    the response is not 2xx the call fails with [HttpError] carrying the
    status, the URL and the body; when it is 2xx the body is decoded as
    JSON, and the call fails with [DecodeError] if it is not JSON. *)
Theorem C4_http_error_or_json self u method base_url url params kwargs w oh :
  Api.user self = Some u ->
  headers_given w kwargs = Some oh ->
  exists req,
    let out := Api._do URL_build server json_loads self method base_url url params kwargs w in
    sent (snd out) = (sent w ++ [req])%list
    /\ req_url req = URL_build "https" base_url url
    /\ fst out
       = if is_2xx (status (server req)) then
           match json_loads (body (server req)) with
           | Some j => Ok j
           | None => Raise DecodeError
           end
         else Raise (HttpError (status (server req)) (req_url req) (body (server req))).
Proof.
  intros Hu Hh. cbv zeta.
  rewrite (do_run URL_build server json_loads self u method base_url url params kwargs w oh Hu Hh).
  eexists. simpl. split; [|split].
  - rewrite sent_app. destruct w as [h evs]. reflexivity.
  - reflexivity.
  - reflexivity.
Qed.


(** C7.  [base_headers] fails with the error for a missing user when
    nobody is logged in; otherwise it returns exactly Authorization
    ("Bearer " and the id token), Content-Type and Accept.  Either way
    the world is left as it was. *)
Theorem C7_base_headers self w :
  Api.base_headers self w
  = (match Api.user self with
     | None => Raise (ValueError "No user is logged in.")
     | Some u =>
         Ok [("Authorization", VStr ("Bearer " +:+ Api.id_token (Api.cognito u)));
             ("Content-Type", VStr "application/json");
             ("Accept", VStr "application/json")]
     end, w).
Proof.
  unfold Api.base_headers. destruct (Api.user self); reflexivity.
Qed.

(** C9 (amended).  With a user logged in, a headers mapping passed by
    reference is updated in place: after the call it holds the three auth
    entries with the auth values.  Every other dictionary object is left
    as it was, the params mapping too when it is another object than the
    headers mapping. *)
Theorem C9_headers_updated_in_place self u method base_url url params kwargs w l :
  Api.user self = Some u ->
  Dict.get kwargs "headers" = Some (ARef l) ->
  let w' := snd (Api._do URL_build server json_loads self method base_url url params kwargs w) in
  heap w' !! l = Some (Dict.update (default [] (heap w !! l)) (auth_headers u))
  /\ (forall k v, In (k, v) (auth_headers u) ->
                  Dict.get (default [] (heap w' !! l)) k = Some v)
  /\ (forall l', l' <> l -> heap w' !! l' = heap w !! l')
  /\ (forall p, params = Some p -> p <> l -> heap w' !! p = heap w !! p).
Proof.
  intros Hu Hk. cbv zeta.
  assert (Hh : headers_given w kwargs = Some (Some (default [] (heap w !! l)))).
  { unfold headers_given. now rewrite Hk. }
  rewrite (do_run URL_build server json_loads self u method base_url url params kwargs w _ Hu Hh).
  cbn [snd heap]. unfold heap_after. rewrite Hk.
  split; [|split; [|split]].
  - apply lookup_insert_eq.
  - intros k v Hin. rewrite lookup_insert_eq. cbn [from_option id].
    rewrite get_update.
    + unfold auth_headers in *. simpl in Hin.
      destruct Hin as [E|[E|[E|[]]]]; injection E as <- <-; reflexivity.
    + unfold auth_headers, Dict.keys. simpl.
      repeat (constructor; [simpl; intuition discriminate|]). constructor.
  - intros l' Hne. now apply lookup_insert_ne.
  - intros p _ Hne. now apply lookup_insert_ne.
Qed.

End DispatcherClaims.

(** ** The dispatcher on the concrete session *)

Lemma C2_null_params_removed_witness :
  exists req,
    sent (snd (Demo.run "GET" "/bookings" (Some 1%positive) [("headers", ARef 2%positive)]))
    = [req]
    /\ req_params req = [("page", VInt 1); ("q", VStr "x")]
    /\ Dict.get (req_params req) "studio" = None.
Proof.
  destruct (C2_null_params_removed Demo.URL_build Demo.server Demo.json_loads Demo.api
              (Api.mkUser (Api.mkCognito "tok")) "GET" Api.API_BASE_URL "/bookings"
              (Some 1%positive) [("headers", ARef 2%positive)] Demo.world
              (Some [("Accept", VStr "text/html"); ("X-Trace", VStr "1")]))
    as (req & Hsent & Hparams & Hget & _).
  - reflexivity.
  - reflexivity.
  - vm_compute. repeat (constructor; [simpl; intuition discriminate|]). constructor.
  - exists req. split; [exact Hsent | split; [exact Hparams | exact (Hget "studio")]].
Defined.

Lemma C3_auth_headers_win_witness :
  exists req,
    sent (snd (Demo.run "GET" "/bookings" None [("headers", ARef 2%positive)])) = [req]
    /\ req_headers req
       = [("Accept", VStr "application/json"); ("X-Trace", VStr "1");
          ("Authorization", VStr "Bearer tok"); ("Content-Type", VStr "application/json")].
Proof.
  destruct (C3_auth_headers_win Demo.URL_build Demo.server Demo.json_loads Demo.api
              (Api.mkUser (Api.mkCognito "tok")) "GET" Api.API_BASE_URL "/bookings"
              None [("headers", ARef 2%positive)] Demo.world
              (Some [("Accept", VStr "text/html"); ("X-Trace", VStr "1")]))
    as (req & Hsent & Hhdrs & _).
  - reflexivity.
  - reflexivity.
  - exists req. split; [exact Hsent | exact Hhdrs].
Defined.

Lemma C4_http_error_or_json_witness :
  exists req,
    sent (snd (Demo.run "GET" "/missing" None [])) = [req]
    /\ fst (Demo.run "GET" "/missing" None [])
       = Raise (HttpError 404 "https://api.orangetheory.co/missing" "Not Found").
Proof.
  destruct (C4_http_error_or_json Demo.URL_build Demo.server Demo.json_loads Demo.api
              (Api.mkUser (Api.mkCognito "tok")) "GET" Api.API_BASE_URL "/missing"
              None [] Demo.world None)
    as (req & Hsent & Hurl & Hout).
  - reflexivity.
  - reflexivity.
  - exists req. split; [exact Hsent|].
    cbv zeta in Hout. unfold Demo.run. rewrite Hout.
    unfold Demo.server. rewrite Hurl. reflexivity.
Defined.

(** On a 2xx answer the body is decoded, and a body that is not JSON
    fails with [DecodeError]. *)
Example do_decodes_on_success :
  fst (Demo.run "GET" "/bookings" None []) = Ok (VDict [("ok", VBool true)])
  /\ fst (Demo.run "PUT" "/bookings" None []) = Raise DecodeError.
Proof. split; reflexivity. Qed.

(** Without a user nothing is sent and the caller's headers are left as
    they were. *)
Example do_logged_out :
  let out := Api._do Demo.URL_build Demo.server Demo.json_loads Demo.logged_out
               "GET" Api.API_BASE_URL "/bookings" None [("headers", ARef 2%positive)]
               Demo.world in
  fst out = Raise (ValueError "No user is logged in.")
  /\ sent (snd out) = []
  /\ heap (snd out) !! 2%positive = heap Demo.world !! 2%positive.
Proof. repeat split; reflexivity. Qed.


Lemma C9_headers_updated_in_place_witness :
  let w' := snd (Demo.run "GET" "/bookings" (Some 1%positive) [("headers", ARef 2%positive)]) in
  heap w' !! 2%positive
  = Some [("Accept", VStr "application/json"); ("X-Trace", VStr "1");
          ("Authorization", VStr "Bearer tok"); ("Content-Type", VStr "application/json")]
  /\ heap w' !! 1%positive = heap Demo.world !! 1%positive.
Proof.
  destruct (C9_headers_updated_in_place Demo.URL_build Demo.server Demo.json_loads Demo.api
              (Api.mkUser (Api.mkCognito "tok")) "GET" Api.API_BASE_URL "/bookings"
              (Some 1%positive) [("headers", ARef 2%positive)] Demo.world 2%positive)
    as (Hl & _ & _ & Hp).
  - reflexivity.
  - reflexivity.
  - split; [exact Hl | apply (Hp 1%positive); [reflexivity | discriminate]].
Defined.

(** C9, as stated, fails: when the caller passes one dictionary object
    both as params and as headers, the params mapping is changed by the
    call. *)
Lemma C9_params_mutated_when_aliased :
  let w' := snd (Demo.run "GET" "/bookings" (Some 1%positive) [("headers", ARef 1%positive)]) in
  heap Demo.world !! 1%positive
  = Some [("page", VInt 1); ("studio", VNone); ("q", VStr "x")]
  /\ heap w' !! 1%positive
     = Some [("page", VInt 1); ("studio", VNone); ("q", VStr "x");
             ("Authorization", VStr "Bearer tok");
             ("Content-Type", VStr "application/json");
             ("Accept", VStr "application/json")]
  /\ heap w' !! 1%positive <> heap Demo.world !! 1%positive.
Proof.
  split; [reflexivity | split; [reflexivity|]].
  vm_compute. discriminate.
Qed.

(** ** The model layer *)

(** Distinct names, checked by computation. *)
Lemma distinct_by_computation (l : list string) :
  bool_decide (NoDup l) = true -> List.NoDup l.
Proof.
  intros H. apply NoDup_ListNoDup. now apply bool_decide_eq_true in H.
Qed.

(** Every entity class of [bookings.py] declares distinct field names. *)
Lemma schemas_distinct_names :
  Forall (fun fs => List.NoDup (Schema.model_fields fs))
    [Schema.Location; Schema.Coach; Schema.Currency; Schema.DefaultCurrency;
     Schema.StudioLocationCountry; Schema.StudioLocation; Schema.Studio;
     Schema.OtfClass; Schema.Member; Schema.Booking].
Proof.
  repeat (constructor; [apply distinct_by_computation; vm_compute; reflexivity|]).
  constructor.
Qed.

(** The fields that the three classes named in the specification keep in
    their output. *)
Example included_fields_of_Coach :
  Schema.model_fields (Model.included Schema.Coach)
  = ["coach_uuid"; "name"; "first_name"; "last_name"].
Proof. reflexivity. Qed.

Example included_fields_of_Member :
  Schema.model_fields (Model.included Schema.Member)
  = ["member_uuid"; "first_name"; "last_name"; "email"; "phone_number"; "gender"].
Proof. reflexivity. Qed.

Example included_fields_of_Booking :
  Schema.model_fields (Model.included Schema.Booking)
  = ["class_booking_id"; "class_booking_uuid"; "studio_id"; "class_id"; "is_intro";
     "member_id"; "status"; "booked_date"; "checked_in_date"; "cancelled_date";
     "created_date"; "updated_date"; "is_deleted"; "waitlist_position"; "otf_class";
     "is_home_studio"].
Proof. reflexivity. Qed.

(** What being well formed says of one entity class. *)
Lemma well_formed_fields (fs : list (field ftype)) :
  Model.well_formed (TModel fs) = true ->
  List.NoDup (Schema.model_fields fs)
  /\ forall f, In f fs -> Model.well_formed (ftyp f) = true.
Proof.
  simpl. intros H. apply andb_true_iff in H as [Hnd Hall]. split.
  - now apply distinct_by_computation.
  - clear Hnd. induction fs as [|[n a t d x] fs IH]; intros f Hin.
    + destruct Hin.
    + apply andb_true_iff in Hall as [Ht Hrest].
      destruct Hin as [<-|Hin]; [exact Ht | now apply IH].
Qed.

Lemma well_formed_through (t : ftype) (fs : list (field ftype)) :
  Model.well_formed t = true -> Model.fields_of t = Some fs ->
  Model.well_formed (TModel fs) = true.
Proof.
  induction t; simpl; intros Hwf Hf; try discriminate.
  - now apply IHt.
  - now injection Hf as <-.
Qed.

Lemma dump_value_leaf (t : ftype) (x : pyval) :
  Model.dump_value t (FLeaf x) = FLeaf x.
Proof. induction t; simpl; try reflexivity. exact IHt. Qed.

(** Re-serialization changes nothing in a value that holds no nested
    entity. *)
Lemma dump_value_flat t v : Model.flat t = true -> Model.dump_value t v = v.
Proof.
  induction t; simpl; intros H; try reflexivity; [now apply IHt | discriminate].
Qed.

(** The output of an entity that has a value for each declared field. *)
Lemma dump_fields_keys rec e fs :
  (forall f, In f fs -> exists v, Dict.get e (fname f) = Some v) ->
  Dict.keys (Model.dump_fields rec e fs) = Schema.model_fields (Model.included fs).
Proof.
  induction fs as [|[n a t dflt x] fs IH]; simpl; intros H.
  - reflexivity.
  - destruct x; simpl.
    + apply IH. intros f Hf. apply H. now right.
    + destruct (H (mkField n a t dflt false)) as (v & Hv); [now left|].
      simpl in Hv. rewrite Hv. simpl. f_equal.
      apply IH. intros f Hf. apply H. now right.
Qed.

Lemma dump_fields_get rec e fs k :
  List.NoDup (Schema.model_fields fs) ->
  Dict.get (Model.dump_fields rec e fs) k
  = match Model.field_named fs k with
    | Some f => if exclude f then None
                else match Dict.get e k with
                     | Some v => Some (rec (ftyp f) v)
                     | None => None
                     end
    | None => None
    end.
Proof.
  unfold Model.field_named.
  induction fs as [|[n a t dflt x] fs IH]; simpl; intros Hnd.
  - reflexivity.
  - inversion Hnd as [|? ? Hnotin Hnd']; subst.
    assert (Hmiss : k = n -> Dict.get (Model.dump_fields rec e fs) k = None).
    { intros ->. rewrite IH by assumption.
      destruct (List.find _ fs) as [g|] eqn:Hg; [|reflexivity].
      apply find_some in Hg as [Hin Heq]. apply String.eqb_eq in Heq.
      exfalso. apply Hnotin. rewrite Heq.
      unfold Schema.model_fields. now apply in_map. }
    destruct (String.eqb_spec k n) as [->|Hk].
    + destruct x; [now apply Hmiss|].
      destruct (Dict.get e n) as [v|]; simpl.
      * now rewrite String.eqb_refl.
      * now apply Hmiss.
    + destruct x; [now apply IH|].
      destruct (Dict.get e n) as [v|]; simpl.
      * destruct (String.eqb_spec k n); [congruence|]. now apply IH.
      * now apply IH.
Qed.

Lemma field_named_self fs f :
  List.NoDup (Schema.model_fields fs) ->
  In f fs ->
  Model.field_named fs (fname f) = Some f.
Proof.
  unfold Model.field_named.
  induction fs as [|g fs IH]; simpl; intros Hnd Hin.
  - destruct Hin.
  - inversion Hnd as [|? ? Hnotin Hnd']; subst.
    destruct Hin as [->|Hin].
    + now rewrite String.eqb_refl.
    + destruct (String.eqb_spec (fname f) (fname g)) as [E|_]; [|now apply IH].
      exfalso. apply Hnotin. rewrite <- E.
      unfold Schema.model_fields. now apply in_map.
Qed.

Lemma field_named_in fs n f :
  Model.field_named fs n = Some f -> In f fs /\ fname f = n.
Proof.
  unfold Model.field_named. intros H. apply find_some in H as [Hin Heq].
  apply String.eqb_eq in Heq. now split.
Qed.

Section ModelFacts.

Variable coerce_str : pyval -> option string.
Variable coerce_int : pyval -> option Z.
Variable coerce_float : pyval -> option string.
Variable coerce_bool : pyval -> option bool.
Variable coerce_datetime : pyval -> option Z.

#[local] Abbreviation validate :=
  (Model.validate coerce_str coerce_int coerce_float coerce_bool coerce_datetime).

(** A parsed entity has one value per declared field, in declaration
    order. *)
Lemma validate_fields_keys rec path d fs e :
  Model.validate_fields rec path d fs = Ok e ->
  Dict.keys e = Schema.model_fields fs.
Proof.
  revert e. induction fs as [|[n a t dflt x] fs IH]; simpl; intros e H.
  - now injection H as <-.
  - destruct (match Dict.get d a with Some _ => _ | None => _ end) as [fv|]; [|discriminate].
    destruct (Model.validate_fields rec path d fs) as [e'|]; [|discriminate].
    injection H as <-. simpl. f_equal. now apply IH.
Qed.

(** The value of each field is what its own type made of the payload's
    entry under the alias, or the default when the entry is missing. *)
Lemma validate_fields_get rec path d fs e f :
  List.NoDup (Schema.model_fields fs) ->
  Model.validate_fields rec path d fs = Ok e ->
  In f fs ->
  exists v,
    Dict.get e (fname f) = Some v
    /\ match Dict.get d (alias f) with
       | Some x => rec (ftyp f) (Model.subpath path (fname f)) x = Ok v
       | None => exists dv, default_ f = Some dv /\ v = FLeaf dv
       end.
Proof.
  revert e. induction fs as [|[n a t dflt x] fs IH]; simpl; intros e Hnd H Hin.
  - destruct Hin.
  - inversion Hnd as [|? ? Hnotin Hnd']; subst.
    destruct (match Dict.get d a with Some _ => _ | None => _ end) as [fv|] eqn:Hhere;
      [|discriminate].
    destruct (Model.validate_fields rec path d fs) as [e'|] eqn:Hrest; [|discriminate].
    injection H as <-.
    destruct Hin as [<-|Hin].
    + exists fv. simpl. rewrite String.eqb_refl. split; [reflexivity|].
      destruct (Dict.get d a) as [y|]; [exact Hhere|].
      destruct dflt as [dv|]; [|discriminate].
      injection Hhere as <-. now exists dv.
    + destruct (IH e' Hnd' eq_refl Hin) as (v & Hv & Hsrc).
      exists v. split; [|exact Hsrc]. simpl.
      destruct (String.eqb_spec (fname f) n) as [E|_]; [|exact Hv].
      exfalso. apply Hnotin. rewrite <- E.
      unfold Schema.model_fields. now apply in_map.
Qed.

(** A payload value that is already of the declared type is kept. *)
Lemma validate_typed t path x :
  Model.typed t x = true -> validate t path x = Ok (FLeaf x).
Proof.
  induction t; simpl; intros H; try discriminate.
  - destruct x; try discriminate; reflexivity.
  - destruct x; try discriminate; reflexivity.
  - destruct x; try discriminate; reflexivity.
  - destruct x; try discriminate; reflexivity.
  - destruct x; try reflexivity; now apply IHt.
Qed.

#[local] Abbreviation parsed :=
  (Model.parsed coerce_str coerce_int coerce_float coerce_bool coerce_datetime).

Lemma parse_is_validate fs raw e :
  Model.parse coerce_str coerce_int coerce_float coerce_bool coerce_datetime fs raw = Ok e ->
  validate (TModel fs) "" raw = Ok (FModel e).
Proof.
  unfold Model.parse. destruct raw; try discriminate. simpl. now intros ->.
Qed.

(** A value parsed at a type that holds an entity class is [None] kept
    as it is, or an entity with a parsed value for each declared field;
    its output is then made field by field. *)
Lemma parsed_entity t v fs :
  parsed t v ->
  Model.fields_of t = Some fs ->
  List.NoDup (Schema.model_fields fs) ->
  (exists x, v = FLeaf x)
  \/ exists e,
       v = FModel e
       /\ Model.dump_value t v = FModel (Model.dump_fields Model.dump_value e fs)
       /\ forall f, In f fs ->
            exists vf, Dict.get e (fname f) = Some vf /\ parsed (ftyp f) vf.
Proof.
  intros [(path & raw & Hv)|Hleaf] Hf Hnd; [|now left].
  revert path raw Hv Hf. induction t; simpl; intros path raw Hv Hf; try discriminate.
  - destruct raw; try (now apply (IHt path _ Hv Hf)).
    injection Hv as <-. left. now eexists.
  - injection Hf as ->.
    destruct raw; try discriminate.
    destruct (Model.validate_fields _ path d fs) as [e|] eqn:He; [|discriminate].
    injection Hv as <-. right. exists e. split; [reflexivity | split; [reflexivity|]].
    intros f Hin.
    destruct (validate_fields_get _ _ _ _ _ f Hnd He Hin) as (vf & Hget & Hsrc).
    exists vf. split; [exact Hget|].
    destruct (Dict.get d (alias f)) as [x|].
    + left. now exists (Model.subpath path (fname f)), x.
    + destruct Hsrc as (dv & _ & ->). right. now exists dv.
Qed.

(** Under a path of declared fields, the output has nothing when a
    field on the way is marked exclude, and otherwise has the output of
    the value the entity has there. *)
Lemma dump_at_path segs : forall t v hidden t',
  parsed t v ->
  Model.well_formed t = true ->
  Model.walk t segs = Some (hidden, t') ->
  Model.at_path segs (Model.dump_value t v)
  = if hidden then None else option_map (Model.dump_value t') (Model.at_path segs v).
Proof.
  induction segs as [|s r IH]; intros t v hidden t' Hp Hwf Hwalk.
  - simpl in Hwalk. injection Hwalk as <- <-. reflexivity.
  - simpl in Hwalk.
    destruct (Model.fields_of t) as [fs|] eqn:Hf; [|discriminate].
    destruct (Model.field_named fs s) as [f|] eqn:Hn; [|discriminate].
    destruct (Model.walk (ftyp f) r) as [[h t'']|] eqn:Hw; [|discriminate].
    injection Hwalk as <- <-.
    pose proof (well_formed_through t fs Hwf Hf) as Hwfs.
    apply well_formed_fields in Hwfs as [Hnd Hsub].
    destruct (field_named_in fs s f Hn) as [Hin Hname].
    destruct (parsed_entity t v fs Hp Hf Hnd) as [[x ->]|(e & -> & Hd & Hfields)].
    + rewrite dump_value_leaf. simpl. now destruct (exclude f || h).
    + rewrite Hd. simpl. rewrite dump_fields_get by assumption. rewrite Hn.
      destruct (exclude f); simpl; [reflexivity|].
      destruct (Hfields f Hin) as (vf & Hget & Hpf). rewrite Hname in Hget.
      rewrite Hget. apply IH; [exact Hpf | now apply Hsub | exact Hw].
Qed.

(** What the entity has under a path of declared fields is itself a
    parsed value, at a well-formed type. *)
Lemma parsed_at_path segs : forall t v hidden t' v',
  parsed t v ->
  Model.well_formed t = true ->
  Model.walk t segs = Some (hidden, t') ->
  Model.at_path segs v = Some v' ->
  parsed t' v' /\ Model.well_formed t' = true.
Proof.
  induction segs as [|s r IH]; intros t v hidden t' v' Hp Hwf Hwalk Hat.
  - simpl in *. injection Hwalk as <- <-. injection Hat as <-. now split.
  - simpl in Hwalk.
    destruct (Model.fields_of t) as [fs|] eqn:Hf; [|discriminate].
    destruct (Model.field_named fs s) as [f|] eqn:Hn; [|discriminate].
    destruct (Model.walk (ftyp f) r) as [[h t'']|] eqn:Hw; [|discriminate].
    injection Hwalk as <- <-.
    pose proof (well_formed_through t fs Hwf Hf) as Hwfs.
    apply well_formed_fields in Hwfs as [Hnd Hsub].
    destruct (field_named_in fs s f Hn) as [Hin Hname].
    destruct (parsed_entity t v fs Hp Hf Hnd) as [[x ->]|(e & -> & _ & Hfields)].
    + discriminate.
    + simpl in Hat. destruct (Hfields f Hin) as (vf & Hget & Hpf).
      rewrite Hname in Hget. rewrite Hget in Hat.
      apply (IH (ftyp f) vf h t'' v' Hpf (Hsub f Hin) Hw Hat).
Qed.

(** An output that is an entity has exactly the fields of its class that
    are not marked exclude, in declaration order. *)
Lemma dump_entity_keys t v o :
  parsed t v ->
  Model.well_formed t = true ->
  Model.dump_value t v = FModel o ->
  exists fs, Model.fields_of t = Some fs
             /\ Dict.keys o = Schema.model_fields (Model.included fs).
Proof.
  intros Hp Hwf Hd.
  assert (Hf : exists fs, Model.fields_of t = Some fs).
  { destruct Hp as [(path & raw & Hv)|[x ->]].
    - clear Hwf. revert path raw Hv Hd.
      induction t; intros path raw Hv Hd;
        cbn [Model.validate Model.dump_value Model.fields_of] in *.
      + exfalso. subst v. destruct raw; try discriminate; destruct (coerce_str _); discriminate.
      + exfalso. subst v. destruct raw; try discriminate; destruct (coerce_int _); discriminate.
      + exfalso. subst v. destruct raw; try discriminate; destruct (coerce_float _); discriminate.
      + exfalso. subst v. destruct raw; try discriminate; destruct (coerce_bool _); discriminate.
      + exfalso. subst v. destruct (coerce_datetime _); discriminate.
      + exfalso. subst v. destruct raw; try discriminate; destruct (find _ _); discriminate.
      + exfalso. subst v. destruct raw; try discriminate; destruct (find _ _); discriminate.
      + destruct raw; try (now apply (IHt path _ Hv Hd)).
        injection Hv as <-. rewrite dump_value_leaf in Hd. discriminate.
      + now eexists.
    - rewrite dump_value_leaf in Hd. discriminate. }
  destruct Hf as (fs & Hf). exists fs. split; [exact Hf|].
  pose proof (well_formed_through t fs Hwf Hf) as Hwfs.
  apply well_formed_fields in Hwfs as [Hnd _].
  destruct (parsed_entity t v fs Hp Hf Hnd) as [[x ->]|(e & -> & Hd' & Hfields)].
  - rewrite dump_value_leaf in Hd. discriminate.
  - rewrite Hd' in Hd. injection Hd as <-.
    apply dump_fields_keys. intros f Hin.
    destruct (Hfields f Hin) as (vf & Hget & _). now exists vf.
Qed.


End ModelFacts.

(** Every entity class of [bookings.py] is well formed, at every depth. *)
Lemma schemas_well_formed :
  forallb (fun fs => Model.well_formed (TModel fs))
    [Schema.Location; Schema.Coach; Schema.Currency; Schema.DefaultCurrency;
     Schema.StudioLocationCountry; Schema.StudioLocation; Schema.Studio;
     Schema.OtfClass; Schema.Member; Schema.Booking] = true.
Proof. vm_compute. reflexivity. Qed.



(** ** Column headers and the tabular projection *)

Section TableFacts.

Variable humanize : string -> string.


End TableFacts.

(* ===================================================================== *)
(** * Further properties of the code *)
(* ===================================================================== *)

(** ** The lookups of the status enums *)

(** Replaces the lookup tables of a goal by their literal contents. *)
Ltac literal_tables :=
  repeat match goal with
         | |- context [Dict.comprehension ?a ?b ?c ?d] =>
             let t := eval vm_compute in (Dict.comprehension a b c d) in
             change (Dict.comprehension a b c d) with t
         end.

(** Replaces the lowercased names in the tests of a search by their
    literal text. *)
Ltac literal_keys :=
  repeat match goal with
         | |- context [PyStr.lower (?f ?c)] =>
             let t := eval vm_compute in (PyStr.lower (f c)) in
             change (PyStr.lower (f c)) with t
         end.

(** Splits a goal on the tests of the key [k] against the literals of a
    lookup table, one after the other. *)
Ltac split_on_key k :=
  repeat match goal with
         | |- context [String.eqb k ?lit] =>
             destruct (String.eqb k lit); [vm_compute; reflexivity|]
         end.

(** X1.  [get_from_key_insensitive] is a search for the member whose
    name, lowercased, is the lowercased key; when there is none the call
    raises [KeyError] on the lowercased key. *)
Theorem get_from_key_insensitive_is_search (key : string) :
  BookingStatus.get_from_key_insensitive key
  = match List.find (fun m => String.eqb (PyStr.lower key) (PyStr.lower (BookingStatus.name m)))
            BookingStatus.members with
    | Some m => Ok m
    | None => Raise (KeyError (PyStr.lower key))
    end.
Proof.
  unfold BookingStatus.get_from_key_insensitive.
  generalize (PyStr.lower key) as k. intros k.
  literal_tables. cbv -[String.eqb BookingStatus._member_map_].
  split_on_key k. reflexivity.
Qed.

(** X2.  [get_case_insensitive] is a search for the member whose value,
    lowercased, is the lowercased argument, and returns that member's
    value as declared; when there is none the call raises [KeyError] on
    the lowercased argument. *)
Theorem get_case_insensitive_is_search (key : string) :
  BookingStatus.get_case_insensitive key
  = match List.find (fun m => String.eqb (PyStr.lower key) (PyStr.lower (BookingStatus.value m)))
            BookingStatus.members with
    | Some m => Ok (BookingStatus.value m)
    | None => Raise (KeyError (PyStr.lower key))
    end.
Proof.
  unfold BookingStatus.get_case_insensitive.
  generalize (PyStr.lower key) as k. intros k.
  literal_tables. cbv -[String.eqb].
  split_on_key k. reflexivity.
Qed.

(** [to_standard_case_insensitive] searches the CLI names and hands the
    value of the member found to the value lookup of [BookingStatus]. *)
Lemma to_standard_case_insensitive_is_search (key : string) :
  BookingStatusCli.to_standard_case_insensitive key
  = match List.find (fun c => String.eqb (PyStr.lower key) (PyStr.lower (BookingStatusCli.name c)))
            BookingStatusCli.members with
    | Some c => BookingStatus.of_value (BookingStatusCli.repr c) (BookingStatusCli.value c)
    | None => Raise (KeyError (PyStr.lower key))
    end.
Proof.
  unfold BookingStatusCli.to_standard_case_insensitive.
  generalize (PyStr.lower key) as k. intros k.
  literal_tables. cbv -[String.eqb BookingStatusCli._member_map_ BookingStatus.of_value
                         BookingStatusCli.repr BookingStatusCli.value].
  split_on_key k. reflexivity.
Qed.

(** X3.  Every outcome of [to_standard_case_insensitive]: a key that is
    no casing of a CLI name raises [KeyError]; a casing of Cancelled,
    Booked or Waitlisted returns that status; a casing of any of the
    seven other names raises [ValueError]. *)
Theorem to_standard_case_insensitive_outcome (key : string) :
  BookingStatusCli.to_standard_case_insensitive key
  = match List.find (fun m => String.eqb (PyStr.lower key) (PyStr.lower (BookingStatus.name m)))
            BookingStatus.members with
    | None => Raise (KeyError (PyStr.lower key))
    | Some m =>
        if String.eqb (BookingStatus.name m) (BookingStatus.value m) then Ok m
        else Raise (ValueError
               ("<BookingStatusCli." +:+ BookingStatus.name m +:+ ": "
                +:+ PyStr.repr (BookingStatus.name m) +:+ "> is not a valid BookingStatus"))
    end.
Proof.
  rewrite to_standard_case_insensitive_is_search.
  generalize (PyStr.lower key) as k. intros k.
  cbn [List.find BookingStatusCli.members BookingStatus.members].
  literal_keys. split_on_key k. reflexivity.
Qed.

(** X4.  [to_standard_case_insensitive] never returns a status other
    than the one named: when it returns [m], the key is a casing of the
    name of [m], and [m] is one of the three members whose value is
    their name. *)
Theorem to_standard_case_insensitive_sound (key : string) (m : BookingStatus.t) :
  BookingStatusCli.to_standard_case_insensitive key = Ok m ->
  PyStr.lower key = PyStr.lower (BookingStatus.name m)
  /\ BookingStatus.value m = BookingStatus.name m
  /\ In m [BookingStatus.Cancelled; BookingStatus.Booked; BookingStatus.Waitlisted].
Proof.
  rewrite to_standard_case_insensitive_is_search.
  destruct (List.find _ BookingStatusCli.members) as [c|] eqn:F; [|discriminate].
  apply find_some in F as [_ F]. apply String.eqb_eq in F.
  intros H.
  destruct c; vm_compute in H; try discriminate H; injection H as <-;
    (split; [exact F | split; [reflexivity | simpl; tauto]]).
Qed.

Lemma to_standard_case_insensitive_sound_witness :
  PyStr.lower "BOOKED" = PyStr.lower (BookingStatus.name BookingStatus.Booked)
  /\ BookingStatus.value BookingStatus.Booked = BookingStatus.name BookingStatus.Booked
  /\ In BookingStatus.Booked
        [BookingStatus.Cancelled; BookingStatus.Booked; BookingStatus.Waitlisted].
Proof.
  apply (to_standard_case_insensitive_sound "BOOKED" BookingStatus.Booked). reflexivity.
Defined.

(** The lookup of the CLI enum is a search among the CLI values. *)
Lemma Cli_get_case_insensitive_is_search (key : string) :
  BookingStatusCli.get_case_insensitive key
  = match List.find (fun c => String.eqb (PyStr.lower key) (PyStr.lower (BookingStatusCli.value c)))
            BookingStatusCli.members with
    | Some c => Ok (BookingStatusCli.value c)
    | None => Raise (KeyError (PyStr.lower key))
    end.
Proof.
  unfold BookingStatusCli.get_case_insensitive.
  generalize (PyStr.lower key) as k. intros k.
  literal_tables. cbv -[String.eqb].
  split_on_key k. reflexivity.
Qed.

(** X5.  What the lookup of the CLI enum returns is a casing of its
    argument, has no space in it, and is the name of a member of
    [BookingStatus]. *)
Theorem Cli_get_case_insensitive_unspaced (key v : string) :
  BookingStatusCli.get_case_insensitive key = Ok v ->
  PyStr.lower key = PyStr.lower v
  /\ PyStr.contains_char " " v = false
  /\ exists m, v = BookingStatus.name m.
Proof.
  rewrite Cli_get_case_insensitive_is_search.
  destruct (List.find _ BookingStatusCli.members) as [c|] eqn:F; [|discriminate].
  intros [= <-].
  apply find_some in F as [_ F]. apply String.eqb_eq in F.
  split; [exact F | split].
  - destruct c; reflexivity.
  - destruct c; simpl;
      [ now exists BookingStatus.CheckedIn
      | now exists BookingStatus.CancelCheckinPending
      | now exists BookingStatus.CancelCheckinRequested
      | now exists BookingStatus.Cancelled
      | now exists BookingStatus.LateCancelled
      | now exists BookingStatus.Booked
      | now exists BookingStatus.Waitlisted
      | now exists BookingStatus.CheckinPending
      | now exists BookingStatus.CheckinRequested
      | now exists BookingStatus.CheckinCancelled ].
Qed.

Lemma Cli_get_case_insensitive_unspaced_witness :
  PyStr.lower "checkedIN" = PyStr.lower "CheckedIn"
  /\ PyStr.contains_char " " "CheckedIn" = false
  /\ exists m, "CheckedIn" = BookingStatus.name m.
Proof.
  apply (Cli_get_case_insensitive_unspaced "checkedIN" "CheckedIn"). reflexivity.
Defined.

(** X6.  [all_statuses] lists every member of its enum exactly once,
    and each status it lists is found again by both lookups: by its
    value through [get_case_insensitive], by its name through
    [get_from_key_insensitive]. *)
Theorem all_statuses_complete :
  List.NoDup BookingStatus_all_statuses
  /\ List.NoDup StudioStatus.all_statuses
  /\ (forall s : StudioStatus.t, In s StudioStatus.all_statuses)
  /\ forall m : BookingStatus.t,
       In m BookingStatus_all_statuses
       /\ BookingStatus.get_case_insensitive (BookingStatus.value m) = Ok (BookingStatus.value m)
       /\ BookingStatus.get_from_key_insensitive (BookingStatus.name m) = Ok m.
Proof.
  split; [|split; [|split]].
  - vm_compute. repeat (constructor; [simpl; intuition discriminate|]). constructor.
  - vm_compute. repeat (constructor; [simpl; intuition discriminate|]). constructor.
  - intros s. destruct s; simpl; tauto.
  - intros m. split; [|split].
    + destruct m; vm_compute; tauto.
    + destruct m; reflexivity.
    + destruct m; reflexivity.
Qed.

(** ** The column headers *)

Section HeaderFacts.

Variable humanize : string -> string.

Lemma get_humanized (fields : list string) (acc : list (string * string)) (attr : string) :
  Dict.get (fold_left (fun a x => if true then Dict.set a x (humanize x) else a) fields acc) attr
  = if existsb (String.eqb attr) fields then Some (humanize attr) else Dict.get acc attr.
Proof.
  revert acc. induction fields as [|f fields IH]; simpl; intros acc.
  - reflexivity.
  - rewrite IH, get_set.
    destruct (String.eqb_spec attr f) as [->|_]; simpl.
    + now destruct (existsb _ fields).
    + reflexivity.
Qed.

(** The shared body of the two header functions: an override wins, then a
    declared field is humanized, and anything else comes back as it is. *)
Lemma header_of_cases (fields : list string) (attr : string) :
  Columns.header_of humanize fields attr
  = match Dict.get Columns.overrides attr with
    | Some h => h
    | None => if existsb (String.eqb attr) fields then humanize attr else attr
    end.
Proof.
  unfold Columns.header_of.
  rewrite get_update.
  - destruct (Dict.get Columns.overrides attr) as [h|]; [reflexivity|].
    unfold Dict.comprehension. rewrite get_humanized. simpl.
    now destruct (existsb _ fields).
  - apply distinct_by_computation. vm_compute. reflexivity.
Qed.

(** X7.  [OtfClass.attr_to_column_header] never fails and answers in
    this order: the override when the attribute has one (so the field
    [name] is headed "Class Name", not its humanized name); the
    humanized name when the attribute is a declared field of the class;
    the attribute itself otherwise. *)
Theorem OtfClass_attr_to_column_header_cases (attr : string) :
  Columns.OtfClass_attr_to_column_header humanize attr
  = match Dict.get Columns.overrides attr with
    | Some h => h
    | None =>
        if existsb (String.eqb attr) (Schema.model_fields Schema.OtfClass)
        then humanize attr else attr
    end.
Proof. apply header_of_cases. Qed.

(** X8.  [Booking.attr_to_column_header] looks at nothing but the last
    dotted segment of an attribute that starts with [otf_class], and
    heads it as the class entity would; two such paths with the same
    last segment get the same header.  Any other attribute is headed by
    its override, else by its humanized name when it is a declared field
    of the booking, else by itself. *)
Theorem Booking_attr_to_column_header_cases (attr : string) :
  Columns.Booking_attr_to_column_header humanize attr
  = if PyStr.startswith attr "otf_class" then
      let seg := List.last (PyStr.split "." attr) "" in
      match Dict.get Columns.overrides seg with
      | Some h => h
      | None =>
          if existsb (String.eqb seg) (Schema.model_fields Schema.OtfClass)
          then humanize seg else seg
      end
    else
      match Dict.get Columns.overrides attr with
      | Some h => h
      | None =>
          if existsb (String.eqb attr) (Schema.model_fields Schema.Booking)
          then humanize attr else attr
      end.
Proof.
  unfold Columns.Booking_attr_to_column_header, Columns.OtfClass_attr_to_column_header.
  destruct (PyStr.startswith attr "otf_class"); cbv zeta; apply header_of_cases.
Qed.

(** X9.  The headers of the default columns of the booking table: six of
    the eight are fixed by the overrides, the status column is the only
    one humanized, and the studio column keeps the raw segment
    "studio_name"; the coach's name, asked for as a column, is headed
    "Class Name" like the class's own. *)
Theorem default_booking_headers :
  map (Columns.Booking_attr_to_column_header humanize) Columns.show_bookings_columns
  = ["Class DoW"; "Class Date"; "Class Time"; "Class Duration"; "Class Name";
     humanize "status"; "studio_name"; "Home Studio"]
  /\ Columns.Booking_attr_to_column_header humanize "otf_class.coach.name" = "Class Name"
  /\ Columns.Booking_attr_to_column_header humanize "otf_class" = "otf_class".
Proof. repeat split. Qed.

End HeaderFacts.

(** ** More on the dispatcher *)

Lemma get_remove {V : Type} (d : list (string * V)) (k k' : string) :
  List.NoDup (Dict.keys d) ->
  Dict.get (Dict.remove d k) k' = if String.eqb k' k then None else Dict.get d k'.
Proof.
  induction d as [|[k0 v0] d IH]; simpl; intros Hnd.
  - now destruct (String.eqb k' k).
  - inversion Hnd as [|? ? Hnotin Hnd']; subst.
    destruct (String.eqb_spec k k0) as [E|Hk].
    + rewrite E. destruct (String.eqb_spec k' k0) as [E'|_]; [|reflexivity].
      rewrite E'. now apply get_None_not_in.
    + simpl. rewrite IH by assumption.
      destruct (String.eqb_spec k' k0) as [E'|_]; [|reflexivity].
      rewrite E'. destruct (String.eqb_spec k0 k); congruence.
Qed.

Lemma keys_set_present {V : Type} (d : list (string * V)) (k : string) (v : V) :
  In k (Dict.keys d) -> Dict.keys (Dict.set d k v) = Dict.keys d.
Proof.
  induction d as [|[k0 v0] d IH]; simpl; intros Hin.
  - destruct Hin.
  - destruct (String.eqb_spec k k0) as [->|Hk]; simpl.
    + reflexivity.
    + f_equal. apply IH. destruct Hin as [E|Hin]; [congruence | exact Hin].
Qed.

Lemma keys_set_grow {V : Type} (d : list (string * V)) (k : string) (v : V) (x : string) :
  In x (Dict.keys d) -> In x (Dict.keys (Dict.set d k v)).
Proof.
  induction d as [|[k0 v0] d IH]; simpl; intros Hin.
  - destruct Hin.
  - destruct (String.eqb k k0); simpl; destruct Hin as [E|Hin]; auto.
Qed.

(** Updating with entries whose keys are all present changes no key and
    no position. *)
Lemma keys_update_present {V : Type} (d e : list (string * V)) :
  (forall k, In k (Dict.keys e) -> In k (Dict.keys d)) ->
  Dict.keys (Dict.update d e) = Dict.keys d.
Proof.
  unfold Dict.update. revert d.
  induction e as [|[k0 v0] e IH]; simpl; intros d H.
  - reflexivity.
  - rewrite IH.
    + apply keys_set_present. apply H. now left.
    + intros k Hk. apply keys_set_grow. apply H. now right.
Qed.

Lemma get_Some_key {V : Type} (d : list (string * V)) (k : string) (v : V) :
  Dict.get d k = Some v -> In k (Dict.keys d).
Proof.
  intros H. apply get_Some_in in H. unfold Dict.keys.
  change k with (fst (k, v)). now apply in_map.
Qed.

Lemma auth_keys_distinct (u : Api.User) : List.NoDup (Dict.keys (auth_headers u)).
Proof.
  unfold auth_headers, Dict.keys. simpl.
  repeat (constructor; [simpl; intuition discriminate|]). constructor.
Qed.

Lemma sent_after_debug (w : World) (h : gmap loc (list (string * pyval))) (msg : string) :
  sent (mkWorld h (events w ++ [Debug msg])) = sent w.
Proof.
  rewrite sent_app. destruct w as [h0 evs]. unfold sent. simpl. apply app_nil_r.
Qed.

Lemma sent_after_request (w : World) (h : gmap loc (list (string * pyval)))
    (msg : string) (req : Request) :
  sent (mkWorld h (events w ++ [Debug msg; Sent req])) = (sent w ++ [req])%list.
Proof. rewrite sent_app. destruct w as [h0 evs]. reflexivity. Qed.

Lemma debug_log_after (w : World) (h : gmap loc (list (string * pyval)))
    (msg : string) (tail : list event) :
  (tail = [] \/ exists req, tail = [Sent req]) ->
  debug_log (mkWorld h (events w ++ Debug msg :: tail)) = (debug_log w ++ [msg])%list.
Proof.
  intros Ht. rewrite debug_log_app. destruct w as [h0 evs]. unfold debug_log. simpl.
  destruct Ht as [->|[req ->]]; reflexivity.
Qed.

Section MoreDispatcherFacts.

Variable URL_build : string -> string -> string -> string.
Variable server : Request -> Response.
Variable json_loads : string -> option pyval.

Implicit Types (self : Api.t) (u : Api.User) (w : World)
  (params : option loc) (kwargs : list (string * arg)).

#[local] Abbreviation call := (Api._do URL_build server json_loads).

#[local] Abbreviation message w method base_url url params kwargs :=
  (debug_message w method (URL_build "https" base_url url)
     (Dict.comprehension fst snd not_none (params_given w params)) kwargs).

(** What a call does when nobody is logged in and the headers argument,
    if there is one, is a mapping. *)
Lemma do_run_logged_out self method base_url url params kwargs w oh :
  Api.user self = None ->
  headers_given w kwargs = Some oh ->
  call self method base_url url params kwargs w
  = (Raise (ValueError "No user is logged in."),
     mkWorld (heap w) (events w ++ [Debug (message w method base_url url params kwargs)])).
Proof.
  intros Hu Hh.
  unfold Api._do, Api.base_headers, headers_given in *. rewrite Hu.
  destruct params as [l|]; unfold bind, deref, ret, raise, repr_kwargs, logger_debug,
    params_given, debug_message; simpl; rewrite ?or_empty;
    (destruct (Dict.get kwargs "headers") as [[v|l0]|]; [destruct v| |]);
    try discriminate; reflexivity.
Qed.

(** What a call does when the headers argument is not a mapping. *)
Lemma do_run_bad_headers self method base_url url params kwargs w v :
  Dict.get kwargs "headers" = Some (AVal v) ->
  PyVal.type_name v <> "dict" ->
  call self method base_url url params kwargs w
  = (Raise (AttributeError ("'" +:+ PyVal.type_name v +:+ "' object has no attribute 'update'")),
     mkWorld (heap w) (events w ++ [Debug (message w method base_url url params kwargs)])).
Proof.
  intros Hk Hv.
  unfold Api._do.
  destruct params as [l|]; unfold bind, deref, ret, raise, repr_kwargs, logger_debug,
    params_given, debug_message; simpl; rewrite ?or_empty, Hk;
    destruct v; try reflexivity; now elim Hv.
Qed.

(** X10.  Without a user no request leaves: the call logs its debug
    message, raises the error for a missing user, sends nothing and
    leaves every dictionary, the caller's headers among them, as it
    was. *)
Theorem do_without_user self method base_url url params kwargs w oh :
  Api.user self = None ->
  headers_given w kwargs = Some oh ->
  let out := call self method base_url url params kwargs w in
  fst out = Raise (ValueError "No user is logged in.")
  /\ sent (snd out) = sent w
  /\ heap (snd out) = heap w
  /\ debug_log (snd out) = (debug_log w ++ [message w method base_url url params kwargs])%list.
Proof.
  intros Hu Hh. cbv zeta.
  rewrite (do_run_logged_out self method base_url url params kwargs w oh Hu Hh).
  cbn [fst snd heap]. split; [reflexivity | split; [apply sent_after_debug | split]].
  - reflexivity.
  - apply debug_log_after. now left.
Qed.

(** X11.  A headers argument that is not a mapping, [headers=None]
    included, is not taken as absent: the call raises [AttributeError]
    for the missing [update], whether or not a user is logged in, sends
    nothing and changes no dictionary. *)
Theorem do_headers_not_a_mapping self method base_url url params kwargs w v :
  Dict.get kwargs "headers" = Some (AVal v) ->
  PyVal.type_name v <> "dict" ->
  let out := call self method base_url url params kwargs w in
  fst out = Raise (AttributeError
                     ("'" +:+ PyVal.type_name v +:+ "' object has no attribute 'update'"))
  /\ sent (snd out) = sent w
  /\ heap (snd out) = heap w.
Proof.
  intros Hk Hv. cbv zeta.
  rewrite (do_run_bad_headers self method base_url url params kwargs w v Hk Hv).
  cbn [fst snd heap]. split; [reflexivity | split; [apply sent_after_debug | reflexivity]].
Qed.

Lemma headers_given_None w kwargs :
  headers_given w kwargs = None ->
  exists v, Dict.get kwargs "headers" = Some (AVal v) /\ PyVal.type_name v <> "dict".
Proof.
  unfold headers_given.
  destruct (Dict.get kwargs "headers") as [[v|l]|]; try discriminate.
  destruct v; try discriminate; intros _; eexists; (split; [reflexivity | discriminate]).
Qed.

(** X12.  Whatever the arguments, a call sends at most one request, and
    a request it sends carries the bearer token of the logged-in user in
    its Authorization header, whatever the caller put there. *)
Theorem do_sends_only_authenticated self method base_url url params kwargs w :
  exists new,
    sent (snd (call self method base_url url params kwargs w)) = (sent w ++ new)%list
    /\ (length new <= 1)%nat
    /\ Forall (fun req =>
                 exists u, Api.user self = Some u
                           /\ Dict.get (req_headers req) "Authorization"
                              = Some (VStr ("Bearer " +:+ Api.id_token (Api.cognito u))))
         new.
Proof.
  destruct (headers_given w kwargs) as [oh|] eqn:Hh;
    [destruct (Api.user self) as [u|] eqn:Hu|].
  - rewrite (do_run URL_build server json_loads self u method base_url url params kwargs w oh Hu Hh).
    eexists [_]. cbn [snd]. split; [apply sent_after_request | split; [simpl; lia|]].
    constructor; [|constructor]. exists u. split; [reflexivity|]. cbn [req_headers].
    destruct oh as [h|]; [|reflexivity].
    rewrite get_update by apply auth_keys_distinct. reflexivity.
  - rewrite (do_run_logged_out self method base_url url params kwargs w oh Hu Hh).
    exists []. cbn [snd]. rewrite sent_after_debug, app_nil_r.
    split; [reflexivity | split; [simpl; lia | constructor]].
  - destruct (headers_given_None w kwargs Hh) as (v & Hk & Hv).
    rewrite (do_run_bad_headers self method base_url url params kwargs w v Hk Hv).
    exists []. cbn [snd]. rewrite sent_after_debug, app_nil_r.
    split; [reflexivity | split; [simpl; lia | constructor]].
Qed.

(** X13.  The headers argument is taken out of the keyword arguments:
    the request gets every other keyword argument as the caller gave it
    and no second [headers]. *)
Theorem do_forwards_other_kwargs self u method base_url url params kwargs w oh :
  Api.user self = Some u ->
  headers_given w kwargs = Some oh ->
  List.NoDup (Dict.keys kwargs) ->
  exists req,
    sent (snd (call self method base_url url params kwargs w)) = (sent w ++ [req])%list
    /\ Dict.get (req_kwargs req) "headers" = None
    /\ forall k, k <> "headers" -> Dict.get (req_kwargs req) k = Dict.get kwargs k.
Proof.
  intros Hu Hh Hnd.
  rewrite (do_run URL_build server json_loads self u method base_url url params kwargs w oh Hu Hh).
  eexists. cbn [snd]. split; [apply sent_after_request|]. cbn [req_kwargs].
  unfold kwargs_passed.
  destruct (Dict.get kwargs "headers") as [a|] eqn:Hk.
  - split.
    + rewrite get_remove by assumption. reflexivity.
    + intros k Hne. rewrite get_remove by assumption.
      destruct (String.eqb_spec k "headers"); [contradiction | reflexivity].
  - split; [exact Hk | reflexivity].
Qed.

(** X14.  Each of the four request helpers is [_do] on its own host:
    with a user logged in, each sends one request, the classes and the
    performance-summary helpers to the URL of the path on the IO host,
    the default helper on the primary host, the DNA helper on the
    telemetry host. *)
Theorem request_helpers_urls self u method url params kwargs w oh :
  Api.user self = Some u ->
  headers_given w kwargs = Some oh ->
  exists classes default dna performance,
    sent (snd (Api._classes_request URL_build server json_loads self method url params kwargs w))
    = (sent w ++ [classes])%list
    /\ sent (snd (Api._default_request URL_build server json_loads self method url params kwargs w))
       = (sent w ++ [default])%list
    /\ sent (snd (Api._dna_request URL_build server json_loads self method url params kwargs w))
       = (sent w ++ [dna])%list
    /\ sent (snd (Api._performance_summary_request URL_build server json_loads
                    self method url params kwargs w))
       = (sent w ++ [performance])%list
    /\ req_url classes = URL_build "https" "api.orangetheory.io" url
    /\ req_url default = URL_build "https" "api.orangetheory.co" url
    /\ req_url dna = URL_build "https" "api.yuzu.orangetheory.com" url
    /\ req_url performance = URL_build "https" "api.orangetheory.io" url.
Proof.
  intros Hu Hh.
  unfold Api._classes_request, Api._default_request, Api._dna_request,
    Api._performance_summary_request.
  rewrite !(do_run URL_build server json_loads self u method _ url params kwargs w oh Hu Hh).
  do 4 eexists. cbn [snd].
  repeat (split; [apply sent_after_request|]).
  repeat split.
Qed.

(** X15.  A call writes to no dictionary unless it is handed a headers
    mapping by reference: otherwise the heap after the call is the heap
    before it, whether the call succeeds or raises. *)
Theorem do_heap_frame self method base_url url params kwargs w :
  (forall l, Dict.get kwargs "headers" <> Some (ARef l)) ->
  heap (snd (call self method base_url url params kwargs w)) = heap w.
Proof.
  intros Hno.
  destruct (headers_given w kwargs) as [oh|] eqn:Hh;
    [destruct (Api.user self) as [u|] eqn:Hu|].
  - rewrite (do_run URL_build server json_loads self u method base_url url params kwargs w oh Hu Hh).
    cbn [snd heap]. unfold heap_after.
    destruct (Dict.get kwargs "headers") as [[v|l]|] eqn:Hk; try reflexivity.
    now elim (Hno l).
  - now rewrite (do_run_logged_out self method base_url url params kwargs w oh Hu Hh).
  - destruct (headers_given_None w kwargs Hh) as (v & Hk & Hv).
    now rewrite (do_run_bad_headers self method base_url url params kwargs w v Hk Hv).
Qed.

(** X16.  A params mapping that holds no [None] goes out as it is, same
    entries in the same order; in particular 0, the empty text and
    [False] are kept. *)
Theorem do_params_without_none self u method base_url url params kwargs w oh :
  Api.user self = Some u ->
  headers_given w kwargs = Some oh ->
  List.NoDup (Dict.keys (params_given w params)) ->
  forallb not_none (params_given w params) = true ->
  exists req,
    sent (snd (call self method base_url url params kwargs w)) = (sent w ++ [req])%list
    /\ req_params req = params_given w params.
Proof.
  intros Hu Hh Hnd Hall.
  rewrite (do_run URL_build server json_loads self u method base_url url params kwargs w oh Hu Hh).
  eexists. cbn [snd]. split; [apply sent_after_request|]. cbn [req_params].
  rewrite comprehension_items by assumption.
  clear -Hall. induction (params_given w params) as [|kv d IH]; simpl in *.
  - reflexivity.
  - apply andb_true_iff in Hall as [Hkv Hd]. rewrite Hkv. f_equal. now apply IH.
Qed.

(** X17.  A headers mapping used for two calls, with the token refreshed
    in between: the second request carries the new token; on every key
    it has what a first call with the new token would have sent; and the
    mapping has not grown, its keys being those the first call left. *)
Theorem do_twice_same_headers self1 self2 u1 u2 m1 b1 url1 p1 k1 m2 b2 url2 p2 k2 w l :
  Api.user self1 = Some u1 ->
  Api.user self2 = Some u2 ->
  Dict.get k1 "headers" = Some (ARef l) ->
  Dict.get k2 "headers" = Some (ARef l) ->
  let w1 := snd (call self1 m1 b1 url1 p1 k1 w) in
  let w2 := snd (call self2 m2 b2 url2 p2 k2 w1) in
  exists req1 req2,
    sent w2 = (sent w ++ [req1; req2])%list
    /\ Dict.get (req_headers req2) "Authorization"
       = Some (VStr ("Bearer " +:+ Api.id_token (Api.cognito u2)))
    /\ (forall k, Dict.get (req_headers req2) k
                  = Dict.get (Dict.update (default [] (heap w !! l)) (auth_headers u2)) k)
    /\ Dict.keys (req_headers req2) = Dict.keys (req_headers req1)
    /\ heap w2 !! l = Some (req_headers req2).
Proof.
  intros Hu1 Hu2 Hk1 Hk2. cbv zeta.
  set (h := default [] (heap w !! l)).
  assert (Hh1 : headers_given w k1 = Some (Some h)).
  { unfold headers_given. now rewrite Hk1. }
  rewrite (do_run URL_build server json_loads self1 u1 m1 b1 url1 p1 k1 w _ Hu1 Hh1).
  cbn [snd]. unfold heap_after. rewrite Hk1.
  set (h1 := Dict.update h (auth_headers u1)).
  set (w1 := mkWorld _ _).
  assert (Hh2 : headers_given w1 k2 = Some (Some h1)).
  { unfold headers_given. rewrite Hk2. unfold w1. cbn [heap].
    now rewrite lookup_insert_eq. }
  rewrite (do_run URL_build server json_loads self2 u2 m2 b2 url2 p2 k2 w1 _ Hu2 Hh2).
  cbn [snd]. unfold heap_after. rewrite Hk2.
  do 2 eexists. split; [|split; [|split; [|split]]].
  - rewrite sent_after_request. unfold w1. rewrite sent_after_request.
    rewrite <- app_assoc. reflexivity.
  - cbn [req_headers]. rewrite get_update by apply auth_keys_distinct. reflexivity.
  - intros k. cbn [req_headers].
    rewrite !get_update by apply auth_keys_distinct. unfold h1.
    rewrite get_update by apply auth_keys_distinct.
    unfold auth_headers. simpl.
    repeat (destruct (String.eqb k _); [reflexivity|]). reflexivity.
  - cbn [req_headers]. apply keys_update_present.
    intros k Hk. unfold h1.
    assert (G : Dict.get (auth_headers u1) k <> None).
    { unfold auth_headers in *. simpl in Hk.
      destruct Hk as [<-|[<-|[<-|[]]]]; discriminate. }
    destruct (Dict.get (auth_headers u1) k) as [v|] eqn:E; [|congruence].
    apply (get_Some_key _ k v).
    rewrite get_update by apply auth_keys_distinct. now rewrite E.
  - cbn [heap req_headers]. apply lookup_insert_eq.
Qed.

(** X18.  The debug trace of a later call shows what an earlier call
    wrote into the caller's headers: when a second call is given, as its
    only keyword argument, the mapping a first call updated, its debug
    message prints that mapping with the Authorization entry of the
    first call in it. *)
Theorem do_second_trace_shows_auth self1 self2 u1 m1 b1 url1 p1 k1 m2 b2 url2 p2 w l :
  Api.user self1 = Some u1 ->
  Dict.get k1 "headers" = Some (ARef l) ->
  let w1 := snd (call self1 m1 b1 url1 p1 k1 w) in
  let w2 := snd (call self2 m2 b2 url2 p2 [("headers", ARef l)] w1) in
  let left := Dict.update (default [] (heap w !! l)) (auth_headers u1) in
  exists msg1,
    debug_log w2
    = (debug_log w
       ++ [msg1;
           "Making " +:+ PyStr.repr m2 +:+ " request to " +:+ URL_build "https" b2 url2
           +:+ ", params: "
           +:+ PyVal.repr (VDict (Dict.comprehension fst snd not_none (params_given w1 p2)))
           +:+ ", kwargs: {'headers': " +:+ PyVal.repr (VDict left) +:+ "}"])%list
    /\ Dict.get left "Authorization"
       = Some (VStr ("Bearer " +:+ Api.id_token (Api.cognito u1))).
Proof.
  intros Hu1 Hk1. cbv zeta.
  set (h := default [] (heap w !! l)).
  assert (Hh1 : headers_given w k1 = Some (Some h)).
  { unfold headers_given. now rewrite Hk1. }
  rewrite (do_run URL_build server json_loads self1 u1 m1 b1 url1 p1 k1 w _ Hu1 Hh1).
  cbn [snd]. unfold heap_after. rewrite Hk1.
  set (w1 := mkWorld _ _).
  destruct (do_events URL_build server json_loads self2 m2 b2 url2 p2
              [("headers", ARef l)] w1) as (tail & Hev & Htail).
  cbv zeta in Hev.
  exists (message w m1 b1 url1 p1 k1).
  split.
  - destruct (snd (call self2 m2 b2 url2 p2 [("headers", ARef l)] w1)) as [h2 ev2].
    cbn [events] in Hev. subst ev2.
    rewrite (debug_log_after w1 h2 _ tail Htail).
    unfold w1 at 1. rewrite (debug_log_after w _ _ [Sent _]) by (right; eexists; reflexivity).
    rewrite <- app_assoc. cbn [app].
    assert (Hmsg : debug_message w1 m2 (URL_build "https" b2 url2)
                     (Dict.comprehension fst snd not_none (params_given w1 p2))
                     [("headers", ARef l)]
                   = "Making " +:+ PyStr.repr m2 +:+ " request to " +:+ URL_build "https" b2 url2
                     +:+ ", params: "
                     +:+ PyVal.repr (VDict (Dict.comprehension fst snd not_none
                                              (params_given w1 p2)))
                     +:+ ", kwargs: {'headers': "
                     +:+ PyVal.repr (VDict (Dict.update h (auth_headers u1))) +:+ "}").
    { unfold debug_message, kwargs_text.
      cbn [map fst snd PyStr.join]. unfold w1 at 2. cbn [heap].
      rewrite lookup_insert_eq. reflexivity. }
    rewrite Hmsg. reflexivity.
  - rewrite get_update by apply auth_keys_distinct. reflexivity.
Qed.

End MoreDispatcherFacts.

(** ** More of the dispatcher on the concrete session *)

Lemma do_without_user_witness :
  let out := Api._do Demo.URL_build Demo.server Demo.json_loads Demo.logged_out
               "GET" Api.API_BASE_URL "/bookings" (Some 1%positive)
               [("headers", ARef 2%positive)] Demo.world in
  fst out = Raise (ValueError "No user is logged in.")
  /\ sent (snd out) = []
  /\ heap (snd out) = heap Demo.world
  /\ debug_log (snd out)
     = ["Making 'GET' request to https://api.orangetheory.co/bookings, params: {'page': 1, 'q': 'x'}, kwargs: {'headers': {'Accept': 'text/html', 'X-Trace': '1'}}"].
Proof.
  apply (do_without_user Demo.URL_build Demo.server Demo.json_loads Demo.logged_out
           "GET" Api.API_BASE_URL "/bookings" (Some 1%positive)
           [("headers", ARef 2%positive)] Demo.world
           (Some [("Accept", VStr "text/html"); ("X-Trace", VStr "1")]));
    reflexivity.
Defined.

Lemma do_headers_not_a_mapping_witness :
  let out := Demo.run "GET" "/bookings" None [("headers", AVal VNone)] in
  fst out = Raise (AttributeError "'NoneType' object has no attribute 'update'")
  /\ sent (snd out) = []
  /\ heap (snd out) = heap Demo.world.
Proof.
  apply (do_headers_not_a_mapping Demo.URL_build Demo.server Demo.json_loads Demo.api
           "GET" Api.API_BASE_URL "/bookings" None [("headers", AVal VNone)]
           Demo.world VNone); [reflexivity | discriminate].
Defined.

Lemma do_forwards_other_kwargs_witness :
  exists req,
    sent (snd (Demo.run "POST" "/bookings" None
                 [("json", AVal (VDict [("classUUId", VStr "abc-123")]));
                  ("headers", ARef 2%positive); ("timeout", AVal (VInt 30))]))
    = [req]
    /\ req_kwargs req
       = [("json", AVal (VDict [("classUUId", VStr "abc-123")])); ("timeout", AVal (VInt 30))].
Proof.
  destruct (do_forwards_other_kwargs Demo.URL_build Demo.server Demo.json_loads Demo.api
              (Api.mkUser (Api.mkCognito "tok")) "POST" Api.API_BASE_URL "/bookings" None
              [("json", AVal (VDict [("classUUId", VStr "abc-123")]));
               ("headers", ARef 2%positive); ("timeout", AVal (VInt 30))]
              Demo.world (Some [("Accept", VStr "text/html"); ("X-Trace", VStr "1")]))
    as (req & Hsent & _).
  - reflexivity.
  - reflexivity.
  - apply distinct_by_computation. vm_compute. reflexivity.
  - exists req. split; [exact Hsent|].
    vm_compute in Hsent. injection Hsent as <-. reflexivity.
Defined.

Lemma request_helpers_urls_witness :
  exists classes default dna performance,
    sent (snd (Api._classes_request Demo.URL_build Demo.server Demo.json_loads Demo.api
                 "GET" "/v1/classes" None [] Demo.world)) = [classes]
    /\ sent (snd (Api._default_request Demo.URL_build Demo.server Demo.json_loads Demo.api
                    "GET" "/v1/classes" None [] Demo.world)) = [default]
    /\ sent (snd (Api._dna_request Demo.URL_build Demo.server Demo.json_loads Demo.api
                    "GET" "/v1/classes" None [] Demo.world)) = [dna]
    /\ sent (snd (Api._performance_summary_request Demo.URL_build Demo.server Demo.json_loads
                    Demo.api "GET" "/v1/classes" None [] Demo.world)) = [performance]
    /\ req_url classes = "https://api.orangetheory.io/v1/classes"
    /\ req_url default = "https://api.orangetheory.co/v1/classes"
    /\ req_url dna = "https://api.yuzu.orangetheory.com/v1/classes"
    /\ req_url performance = "https://api.orangetheory.io/v1/classes".
Proof.
  apply (request_helpers_urls Demo.URL_build Demo.server Demo.json_loads Demo.api
           (Api.mkUser (Api.mkCognito "tok")) "GET" "/v1/classes" None [] Demo.world None);
    reflexivity.
Defined.

Lemma do_heap_frame_witness :
  heap (snd (Demo.run "GET" "/missing" (Some 1%positive)
               [("headers", AVal (VDict [("X-Trace", VStr "1")]))]))
  = heap Demo.world.
Proof.
  apply (do_heap_frame Demo.URL_build Demo.server Demo.json_loads Demo.api
           "GET" Api.API_BASE_URL "/missing" (Some 1%positive)
           [("headers", AVal (VDict [("X-Trace", VStr "1")]))] Demo.world).
  intros l. simpl. discriminate.
Defined.

Lemma do_params_without_none_witness :
  exists req,
    sent (snd (Demo.run "GET" "/bookings" (Some 2%positive) [])) = [req]
    /\ req_params req = [("Accept", VStr "text/html"); ("X-Trace", VStr "1")].
Proof.
  apply (do_params_without_none Demo.URL_build Demo.server Demo.json_loads Demo.api
           (Api.mkUser (Api.mkCognito "tok")) "GET" Api.API_BASE_URL "/bookings"
           (Some 2%positive) [] Demo.world None).
  - reflexivity.
  - reflexivity.
  - apply distinct_by_computation. vm_compute. reflexivity.
  - reflexivity.
Defined.

Lemma do_twice_same_headers_witness :
  let w1 := snd (Demo.run "GET" "/bookings" None [("headers", ARef 2%positive)]) in
  let w2 := snd (Api._do Demo.URL_build Demo.server Demo.json_loads Demo2.refreshed
                   "GET" Api.API_BASE_URL "/bookings" None [("headers", ARef 2%positive)] w1) in
  exists req1 req2,
    sent w2 = [req1; req2]
    /\ Dict.get (req_headers req2) "Authorization" = Some (VStr "Bearer tok2")
    /\ Dict.keys (req_headers req2) = Dict.keys (req_headers req1).
Proof.
  destruct (do_twice_same_headers Demo.URL_build Demo.server Demo.json_loads
              Demo.api Demo2.refreshed
              (Api.mkUser (Api.mkCognito "tok")) (Api.mkUser (Api.mkCognito "tok2"))
              "GET" Api.API_BASE_URL "/bookings" None [("headers", ARef 2%positive)]
              "GET" Api.API_BASE_URL "/bookings" None [("headers", ARef 2%positive)]
              Demo.world 2%positive)
    as (req1 & req2 & Hsent & Hauth & _ & Hkeys & _); try reflexivity.
  exists req1, req2. split; [exact Hsent | split; [exact Hauth | exact Hkeys]].
Defined.

Lemma do_second_trace_shows_auth_witness :
  let w1 := snd (Demo.run "GET" "/bookings" None [("headers", ARef 2%positive)]) in
  let w2 := snd (Api._do Demo.URL_build Demo.server Demo.json_loads Demo.logged_out
                   "GET" Api.API_BASE_URL "/bookings" None [("headers", ARef 2%positive)] w1) in
  exists msg1,
    debug_log w2
    = [msg1;
       "Making 'GET' request to https://api.orangetheory.co/bookings, params: {}, kwargs: {'headers': {'Accept': 'application/json', 'X-Trace': '1', 'Authorization': 'Bearer tok', 'Content-Type': 'application/json'}}"].
Proof.
  destruct (do_second_trace_shows_auth Demo.URL_build Demo.server Demo.json_loads
              Demo.api Demo.logged_out (Api.mkUser (Api.mkCognito "tok"))
              "GET" Api.API_BASE_URL "/bookings" None [("headers", ARef 2%positive)]
              "GET" Api.API_BASE_URL "/bookings" None Demo.world 2%positive)
    as (msg1 & Hlog & _); try reflexivity.
  exists msg1. exact Hlog.
Defined.

(** ** The style of a booking row *)

Section StyleFacts.

Variable Style : Type.
Variable Style_ : string -> option bool -> Style.

(** X19.  A cancelled or a waitlisted booking is styled the same
    whether or not it is selected and whatever the base class answers,
    so its selection is not shown; a checked-in booking's style depends
    on the selection alone; a booking of any other status gets the base
    class's style as it is. *)
Theorem get_style_by_status (base base' : bool -> Style) (status : BookingStatus.t)
    (sel sel' : bool) :
  (status = BookingStatus.Cancelled \/ status = BookingStatus.Waitlisted ->
   BookingStyle.get_style Style Style_ base status sel
   = BookingStyle.get_style Style Style_ base' status sel')
  /\ (status = BookingStatus.CheckedIn ->
      BookingStyle.get_style Style Style_ base status sel
      = BookingStyle.get_style Style Style_ base' status sel)
  /\ (status <> BookingStatus.Cancelled ->
      status <> BookingStatus.Waitlisted ->
      status <> BookingStatus.CheckedIn ->
      BookingStyle.get_style Style Style_ base status sel = base sel).
Proof.
  split; [|split].
  - intros [->| ->]; reflexivity.
  - intros ->. destruct sel; reflexivity.
  - intros H1 H2 H3. destruct status; try reflexivity; contradiction.
Qed.

End StyleFacts.

(** ** The package's exports *)

(** X20.  [__all__] names exactly what the package imports: every
    exported name is bound by an import, every imported name is
    exported, and no name is listed twice. *)
Theorem exports_are_the_imports :
  Package.__all__ ≡ₚ Package.imported
  /\ List.NoDup Package.__all__
  /\ length Package.__all__ = 34%nat.
Proof.
  split; [|split].
  - apply (bool_decide_eq_true_1 (Package.__all__ ≡ₚ Package.imported)).
    vm_compute. reflexivity.
  - apply distinct_by_computation. vm_compute. reflexivity.
  - reflexivity.
Qed.
